(** * cc-session-stats: a shallow embedding of [cli.mjs]

    The development follows the pipeline of the program:
    [readFirstLastLine] and [parseTimestamp] turn one transcript file into a
    pair of instants, [cleanProjectName] shortens the directory name,
    [scanSessions] walks the storage tree and builds the sorted session list,
    [analyze] folds it into the statistics, [buildJsonOutput] rounds them for
    the machine-readable report and [main] picks the exit code.

    Modelling conventions.
    - JavaScript numbers that hold integers (sizes, indices, time values in
      milliseconds) are [Z]; numbers that hold hours are exact rationals [Q].
      The rounding of IEEE doubles is not modelled.
    - A JavaScript string is a [string]; a file's bytes and the text decoded
      from them are identified (one byte, one character).
    - An exception is an explicit [Throw] outcome; [try]/[catch] is a match.
    - The key that [toLocaleDateString('en-CA')] produces (the text
      YYYY-MM-DD) is represented by the number of the local calendar day
      counted from 1970-01-01: for four-digit years the texts are ordered
      as the day numbers are, and [new Date(key)] is UTC midnight of
      that day.
    - An object used as a map is the list of its bindings in the order of
      their creation.  A project label is taken not to be the name of a
      property that every object inherits (such as [constructor]), for
      which [projectHours[p]] would read the inherited value.
    - The built-ins the program calls but does not define ([JSON.parse],
      [Date.parse], the string conversion of objects, the local time zone
      and the clock) are the fields of the class [Host]. *)

From Stdlib Require Import ZArith QArith Qround Qabs String Ascii List Bool Lia.
From Stdlib Require Import Permutation Sorted DecimalString Lqa.
Import ListNotations.

Set Warnings "-register-all".

Local Open Scope string_scope.
Local Open Scope Z_scope.

(* ------------------------------------------------------------------ *)
(** ** Config *)

Definition SESSION_GAP_HOURS : Q := (1 # 2)%Q.
Definition HEALTH_WARN_SESSION_HOURS : Q := 3%Q.
Definition HEALTH_WARN_CONSECUTIVE_DAYS : Z := 7.
Definition MAX_INTERACTIVE_SESSION_HOURS : Q := 8%Q.

Definition MS_PER_HOUR : Z := 1000 * 60 * 60.
Definition MS_PER_DAY : Z := 1000 * 60 * 60 * 24.
Definition MS_PER_WEEK : Z := 7 * 24 * 60 * 60 * 1000.

(* ------------------------------------------------------------------ *)
(** ** JavaScript values and completions *)

Inductive Completion (A : Type) : Type :=
| Normal (a : A)
| Throw.
Arguments Normal {A} a.
Arguments Throw {A}.

Definition bind {A B : Type} (c : Completion A) (k : A -> Completion B)
  : Completion B :=
  match c with
  | Normal a => k a
  | Throw => Throw
  end.

Notation "x <- c ;; k" := (bind c (fun x => k))
  (at level 61, c at next level, right associativity).

(** [try { body } catch {}] followed by a fall-through value. *)
Definition try_catch {A : Type} (body : Completion A) (fallback : A) : A :=
  match body with
  | Normal a => a
  | Throw => fallback
  end.

Inductive JSValue : Type :=
| JUndefined
| JNull
| JBool (b : bool)
| JNumber (q : Q)
| JString (s : string)
| JArray (xs : list JSValue)
| JObject (props : list (string * JSValue)).

(** A [Date] object: its time value is a number of milliseconds or NaN. *)
Inductive Date : Type :=
| ValidDate (t : Z)
| InvalidDate.

Definition Qnonzero (q : Q) : bool := negb (Qnum q =? 0).

(** ToBoolean. *)
Definition truthy (v : JSValue) : bool :=
  match v with
  | JUndefined | JNull => false
  | JBool b => b
  | JNumber q => Qnonzero q
  | JString s => negb (s =? "")%string
  | JArray _ | JObject _ => true
  end.

(** The last binding of a key wins, as in an object built by [JSON.parse]. *)
Definition own_property (props : list (string * JSValue)) (key : string)
  : JSValue :=
  fold_left (fun acc kv => if (fst kv =? key)%string then snd kv else acc)
            props JUndefined.

(** [v.key] for a key that no prototype defines ([timestamp], [ts]):
    reading a property of [null] or [undefined] throws a TypeError, a
    primitive or an array has no such property. *)
Definition Get (v : JSValue) (key : string) : Completion JSValue :=
  match v with
  | JUndefined | JNull => Throw
  | JObject props => Normal (own_property props key)
  | JBool _ | JNumber _ | JString _ | JArray _ => Normal JUndefined
  end.

Class Host : Type := {
  (** [JSON.parse]; [Throw] is its SyntaxError. *)
  JSON_parse : string -> Completion JSValue;
  (** [Date.parse]; [None] is NaN. *)
  Date_parse : string -> option Z;
  (** The string an array or a plain object converts to. *)
  Object_toString : JSValue -> string;
  (** Offset of local time from UTC, in milliseconds, at a UTC instant. *)
  LocalTZA : Z -> Z;
  (** [Date.now()] *)
  Date_now : Z
}.

Definition Qtruncate (q : Q) : Z :=
  if Qle_bool 0 q then Qfloor q else Qceiling q.

Definition TimeClip (q : Q) : Date :=
  if Qle_bool (Qabs q) (inject_Z 8640000000000000)
  then ValidDate (Qtruncate q)
  else InvalidDate.

Section Builtins.
Context {host : Host}.

Definition ToPrimitive (v : JSValue) : JSValue :=
  match v with
  | JArray _ | JObject _ => JString (Object_toString v)
  | _ => v
  end.

(** [new Date(value)] with one argument that is not itself a Date. *)
Definition new_Date (value : JSValue) : Date :=
  match ToPrimitive value with
  | JString s =>
      match Date_parse s with
      | Some t => ValidDate t
      | None => InvalidDate
      end
  | JNumber q => TimeClip q
  | JBool b => TimeClip (if b then 1 else 0)%Q
  | JNull => TimeClip 0%Q
  | JUndefined | JArray _ | JObject _ => InvalidDate
  end.
End Builtins.

(* ------------------------------------------------------------------ *)
(** ** Strings *)

Definition newline : ascii := "010"%char.
Definition dash : ascii := "-"%char.

Fixpoint str_length (s : string) : Z :=
  match s with
  | EmptyString => 0
  | String _ s' => 1 + str_length s'
  end.

(** [s.substring(0, n)] *)
Fixpoint substring_to (s : string) (n : Z) : string :=
  match s with
  | EmptyString => EmptyString
  | String c s' => if n <=? 0 then EmptyString else String c (substring_to s' (n - 1))
  end.

(** [s.substring(n)] *)
Fixpoint substring_from (s : string) (n : Z) : string :=
  match s with
  | EmptyString => EmptyString
  | String c s' => if n <=? 0 then s else substring_from s' (n - 1)
  end.

(** [s.indexOf(c)], -1 when [c] does not occur. *)
Fixpoint indexOf (s : string) (c : ascii) : Z :=
  match s with
  | EmptyString => -1
  | String d s' =>
      if Ascii.eqb d c then 0
      else let i := indexOf s' c in if i <? 0 then -1 else 1 + i
  end.

(** [s.split(sep)] for a separator of one character. *)
Fixpoint split (sep : ascii) (s : string) : list string :=
  match s with
  | EmptyString => [EmptyString]
  | String c s' =>
      if Ascii.eqb c sep then EmptyString :: split sep s'
      else match split sep s' with
           | hd :: tl => String c hd :: tl
           | [] => [String c EmptyString]
           end
  end.

(** [xs.join(sep)] *)
Fixpoint join (sep : string) (xs : list string) : string :=
  match xs with
  | [] => EmptyString
  | [x] => x
  | x :: rest => x ++ sep ++ join sep rest
  end.

(** The white space that [trim] removes, within the ASCII range. *)
Definition is_whitespace (c : ascii) : bool :=
  let n := N_of_ascii c in
  ((9 <=? n) && (n <=? 13) || (n =? 32))%N.

Fixpoint trimStart (s : string) : string :=
  match s with
  | EmptyString => EmptyString
  | String c s' => if is_whitespace c then trimStart s' else s
  end.

Fixpoint trimEnd (s : string) : string :=
  match s with
  | EmptyString => EmptyString
  | String c s' =>
      match trimEnd s' with
      | EmptyString => if is_whitespace c then EmptyString else String c EmptyString
      | t => String c t
      end
  end.

Definition trim (s : string) : string := trimEnd (trimStart s).

(** ToBoolean of a string; also [Boolean] used as a filter. *)
Definition nonempty (s : string) : bool := negb (s =? "")%string.

Definition startsWith (s p : string) : bool := String.prefix p s.

Definition endsWith (s p : string) : bool :=
  (substring_from s (str_length s - str_length p) =? p)%string
  && (str_length p <=? str_length s).

(** [xs[xs.length - 1]], [None] being [undefined]. *)
Fixpoint last_element {A : Type} (xs : list A) : option A :=
  match xs with
  | [] => None
  | [x] => Some x
  | _ :: rest => last_element rest
  end.

(* ------------------------------------------------------------------ *)
(** ** The file system seen by the scanner *)

Inductive Node : Type :=
| File (readable : bool) (content : string)
| Dir (size : Z) (listable : bool) (entries : list (string * Node))
| Missing.

Record Stats : Type := { st_size : Z; st_isDirectory : bool }.

(** [stat(path).catch(() => null)] *)
Definition stat (n : Node) : option Stats :=
  match n with
  | File _ content => Some {| st_size := str_length content; st_isDirectory := false |}
  | Dir size _ _ => Some {| st_size := size; st_isDirectory := true |}
  | Missing => None
  end.

Fixpoint lookup_entry (entries : list (string * Node)) (name : string) : Node :=
  match entries with
  | [] => Missing
  | (n, node) :: rest => if (n =? name)%string then node else lookup_entry rest name
  end.

(** [join(path, name)] *)
Definition child (n : Node) (name : string) : Node :=
  match n with
  | Dir _ _ entries => lookup_entry entries name
  | File _ _ | Missing => Missing
  end.

Definition readdir (n : Node) : Completion (list string) :=
  match n with
  | Dir _ true entries => Normal (map fst entries)
  | Dir _ false _ | File _ _ | Missing => Throw
  end.

(* ------------------------------------------------------------------ *)
(** ** Read first and last line of a file *)

Record EdgeLines : Type := { firstLine : string; lastLine : string }.

(** The body of [readFirstLastLine] once the file is open. *)
Definition readFirstLastLine_open (content : string) : option EdgeLines :=
  let firstChunk := substring_to content 8192 in
  let firstBytes := str_length firstChunk in
  if firstBytes =? 0 then None else
  let firstNewline := indexOf firstChunk newline in
  let firstLine :=
    if 0 <=? firstNewline then substring_to firstChunk firstNewline else firstChunk in
  let fileSize := str_length content in
  if fileSize <? 2 then Some {| firstLine := firstLine; lastLine := firstLine |} else
  let readSize := Z.min 65536 fileSize in
  let tailChunk := substring_to (substring_from content (fileSize - readSize)) readSize in
  let lines := filter (fun l => nonempty (trim l)) (split newline tailChunk) in
  let lastLine :=
    match last_element lines with
    | Some l => if nonempty l then l else firstLine
    | None => firstLine
    end in
  Some {| firstLine := firstLine; lastLine := lastLine |}.

(** [None] is the [null] returned for an empty file; [Throw] is a failure
    of [open] or [read]. *)
Definition readFirstLastLine (filePath : Node) : Completion (option EdgeLines) :=
  match filePath with
  | File true content => Normal (readFirstLastLine_open content)
  | File false _ | Dir _ _ _ | Missing => Throw
  end.

Section ParseTimestamp.
Context {host : Host}.

(** [None] is [null]; [data.timestamp || data.ts] reads [ts] only when
    [timestamp] is falsy. *)
Definition parseTimestamp (jsonLine : string) : option Date :=
  try_catch
    (data <- JSON_parse jsonLine ;;
     timestamp <- Get data "timestamp" ;;
     ts <- (if truthy timestamp then Normal timestamp else Get data "ts") ;;
     if truthy ts then Normal (Some (new_Date ts)) else Normal None)
    None.
End ParseTimestamp.

(* ------------------------------------------------------------------ *)
(** ** Helpers *)

Definition cleanProjectName (dirName : string) : string :=
  if startsWith dirName "-tmp" then "/tmp" else
  let parts := filter nonempty (split dash dirName) in
  if match hd_error parts with
     | Some p0 => (p0 =? "home")%string
     | None => false
     end && (2 <=? Z.of_nat (length parts))
  then
    let rest := skipn 2 parts in
    if Z.of_nat (length rest) =? 0 then "~" else
    let rest :=
      match rest with
      | r0 :: shifted => if (r0 =? "projects")%string then shifted else rest
      | [] => rest
      end in
    let joined := join "-" rest in
    if nonempty joined then joined else "~"
  else dirName.

(* ------------------------------------------------------------------ *)
(** ** Scan sessions *)

Record Session : Type := {
  project : string;
  start : Z;
  end_ : Z;
  durationHours : Q;
  sizeBytes : Z
}.

(** [xs.sort(cmp)]: a stable sort driven by the sign of the comparator. *)
Section Sort.
Context {A : Type} (cmp : A -> A -> Z).

Fixpoint sort_insert (x : A) (sorted : list A) : list A :=
  match sorted with
  | [] => [x]
  | y :: rest => if cmp x y <=? 0 then x :: sorted else y :: sort_insert x rest
  end.

Definition sort (xs : list A) : list A := fold_right sort_insert [] xs.
End Sort.

Section ScanSessions.
Context {host : Host}.

Definition addSession (filePath : Node) (project : string)
           (sessions : list Session) : list Session :=
  match stat filePath with
  | None => sessions
  | Some fileStat =>
      if st_size fileStat <? 50 then sessions else
      try_catch
        (result <- readFirstLastLine filePath ;;
         match result with
         | None => Normal sessions
         | Some result =>
             let startTs := parseTimestamp (firstLine result) in
             let endTs := parseTimestamp (lastLine result) in
             match startTs, endTs with
             | Some startTs, Some endTs =>
                 (* a Date object is truthy even when it is invalid *)
                 match startTs, endTs with
                 | ValidDate t0, ValidDate t1 =>
                     let durationMs := t1 - t0 in
                     if (0 <=? durationMs) && (durationMs <? MS_PER_WEEK) then
                       Normal (sessions ++
                               [{| project := project;
                                   start := t0;
                                   end_ := t1;
                                   durationHours := durationMs # Z.to_pos MS_PER_HOUR;
                                   sizeBytes := st_size fileStat |}])%list
                     else Normal sessions
                 | _, _ =>
                     (* durationMs is NaN: both comparisons are false *)
                     Normal sessions
                 end
             | _, _ => Normal sessions
             end
         end)
        sessions
  end.

Definition isDirectory (s : option Stats) : bool :=
  match s with
  | Some st => st_isDirectory st
  | None => false
  end.

(** One iteration of the loop over [projectDirs]. *)
Definition scanProject (projectsDir : Node) (sessions : list Session)
           (projDir : string) : list Session :=
  let projPath := child projectsDir projDir in
  let projStat := stat projPath in
  if negb (isDirectory projStat) then sessions else
  match readdir projPath with
  | Throw => sessions
  | Normal files =>
      (* main session files *)
      let sessions :=
        fold_left
          (fun sessions file =>
             if negb (endsWith file ".jsonl") then sessions else
             let filePath := child projPath file in
             addSession filePath (cleanProjectName projDir) sessions)
          files sessions in
      (* subagent sessions *)
      fold_left
        (fun sessions file =>
           let subPath := child (child projPath file) "subagents" in
           let subStat := stat subPath in
           if negb (isDirectory subStat) then sessions else
           match readdir subPath with
           | Throw => sessions
           | Normal subFiles =>
               fold_left
                 (fun sessions sf =>
                    if negb (endsWith sf ".jsonl") then sessions else
                    addSession (child subPath sf) (cleanProjectName projDir) sessions)
                 subFiles sessions
           end)
        files sessions
  end.

Definition scanSessions (claudeDir : Node) : list Session :=
  let projectsDir := child claudeDir "projects" in
  let sessions : list Session := [] in
  match readdir projectsDir with
  | Throw => sessions
  | Normal projectDirs =>
      let sessions := fold_left (scanProject projectsDir) projectDirs sessions in
      sort (fun a b => start a - start b) sessions
  end.
End ScanSessions.

(* ------------------------------------------------------------------ *)
(** ** Objects used as maps, numbers and text *)

Definition Qlt_bool (x y : Q) : bool := negb (Qle_bool y x).

(** The sign of a number, which is all that [sort] reads of a comparator's
    result. *)
Definition Qcompare_sign (x : Q) : Z := Z.sgn (Qnum x).

(** An object whose keys arrive through [obj[key] = v]: the keys are kept in
    the order of their first assignment. *)
Section Obj.
Context {K V : Type} (eqb : K -> K -> bool).

Fixpoint obj_get (o : list (K * V)) (k : K) : option V :=
  match o with
  | [] => None
  | (k', v) :: rest => if eqb k' k then Some v else obj_get rest k
  end.

Fixpoint obj_set (o : list (K * V)) (k : K) (v : V) : list (K * V) :=
  match o with
  | [] => [(k, v)]
  | (k', v') :: rest =>
      if eqb k' k then (k', v) :: rest else (k', v') :: obj_set rest k v
  end.
End Obj.

(** [xs[i] += h] on an array that has the index. *)
Fixpoint array_add (xs : list Q) (i : Z) (h : Q) : list Q :=
  match xs with
  | [] => []
  | x :: rest => if i =? 0 then (x + h)%Q :: rest else x :: array_add rest (i - 1) h
  end.

Definition sum_hours {A : Type} (f : A -> Q) (xs : list A) : Q :=
  fold_left (fun s x => (s + f x)%Q) xs 0%Q.

(** The text of an integer in a template literal. *)
Definition Z_toString (z : Z) : string := NilZero.string_of_int (Z.to_int z).

(** [Math.round]: the nearest integer, a tie going up. *)
Definition Math_round (x : Q) : Z := Qfloor (x + (1 # 2))%Q.

(** [x.toFixed(1)] *)
Definition toFixed1 (x : Q) : string :=
  let neg := Qlt_bool x 0 in
  let n := Math_round ((if neg then - x else x) * 10)%Q in
  (if neg then "-" else "") ++ Z_toString (n / 10) ++ "." ++ Z_toString (n mod 10).

(** A key that an object lists before its string keys: the canonical text
    of an integer below 2^32 - 1. *)
Fixpoint digits_value (s : string) (acc : Z) : option Z :=
  match s with
  | EmptyString => Some acc
  | String c s' =>
      let n := Z.of_N (N_of_ascii c) in
      if (48 <=? n) && (n <=? 57) then digits_value s' (10 * acc + (n - 48)) else None
  end.

Definition array_index (key : string) : option Z :=
  match key with
  | EmptyString => None
  | String c rest =>
      if Ascii.eqb c "0"%char && nonempty rest then None else
      match digits_value key 0 with
      | Some n => if n <? 4294967295 then Some n else None
      | None => None
      end
  end.

(** [Object.entries(o)]: integer keys in ascending order, then the others
    in the order of their creation. *)
Definition Object_entries {V : Type} (o : list (string * V)) : list (string * V) :=
  let is_index (kv : string * V) :=
    match array_index (fst kv) with Some _ => true | None => false end in
  let index_of (kv : string * V) :=
    match array_index (fst kv) with Some n => n | None => 0 end in
  (sort (fun a b => index_of a - index_of b) (filter is_index o)
   ++ filter (fun kv => negb (is_index kv)) o)%list.

(* ------------------------------------------------------------------ *)
(** ** Analyze *)

Inductive Level : Type := info | warn | alert.

Record Warning : Type := { level : Level; msg : string }.

(** A value of [byDate]. *)
Module DateEntry.
Record t : Type := { sessions : list Session; hours : Q }.
End DateEntry.

Record AnalysisResult : Type := {
  totalSessions : Z;
  totalHours : Q;
  avgDuration : Q;
  maxSession : Session;
  hasAutonomousSessions : bool;
  activeDays : list Z;
  totalDaysSpan : Z;
  byDate : list (Z * DateEntry.t);
  dowHours : list Q;
  dowNames : list string;
  hourBuckets : list Q;
  projectHours : list (string * Q);
  maxStreak : Z;
  warnings : list Warning;
  firstDay : Z;
  lastDay : Z;
  recent7Days : Z;
  recent7Hours : Q;
  avgDailyHours : Q
}.

Definition list_length {A : Type} (xs : list A) : Z := Z.of_nat (length xs).

(** [new Date(key)] for a date key: UTC midnight of that day. *)
Definition Date_of_key (day : Z) : Z := day * MS_PER_DAY.

(** The loop over [activeDays] from index 1, [prev] being [activeDays[i - 1]]. *)
Fixpoint streak_loop (prev : Z) (days : list Z) (maxStreak currentStreak : Z) : Z :=
  match days with
  | [] => maxStreak
  | curr :: days' =>
      let diffDays := ((Date_of_key curr - Date_of_key prev) # Z.to_pos MS_PER_DAY)%Q in
      if Qeq_bool diffDays 1 then
        let currentStreak := currentStreak + 1 in
        streak_loop curr days' (Z.max maxStreak currentStreak) currentStreak
      else
        streak_loop curr days' maxStreak 1
  end.

Definition longest_streak (activeDays : list Z) : Z :=
  match activeDays with
  | [] => 1
  | first :: days => streak_loop first days 1 1
  end.

(** The sessions among which "Longest Session" is chosen: those under
    [MAX_INTERACTIVE_SESSION_HOURS] when there are any. *)
Definition maxSessionBase_of (sessions : list Session) : list Session :=
  let interactiveSessions :=
    filter (fun s => Qle_bool (durationHours s) MAX_INTERACTIVE_SESSION_HOURS)
           sessions in
  if 0 <? list_length interactiveSessions then interactiveSessions else sessions.

(** The reduction that picks the longest session of [base]; a later
    session replaces the current one only when it is strictly longer. *)
Definition longest_of (base : list Session) (init : Session) : Session :=
  fold_left
    (fun max s => if Qlt_bool (durationHours max) (durationHours s) then s else max)
    base init.

Definition longSessions_of (sessions : list Session) : list Session :=
  filter (fun s => Qle_bool HEALTH_WARN_SESSION_HOURS (durationHours s)) sessions.

(** The four entries, each with its message template. *)
Definition long_session_warning (count : Z) : Warning :=
  {| level := warn;
     msg := Z_toString count ++ " session(s) over " ++ "3"
            ++ "h without a break. Your spine has opinions." |}.

Definition streak_warning (maxStreak : Z) : Warning :=
  {| level := warn;
     msg := Z_toString maxStreak
            ++ " consecutive days of AI usage. Rest days exist for a reason." |}.

Definition average_warning (avgDuration : Q) : Warning :=
  {| level := info;
     msg := "Average session is " ++ toFixed1 avgDuration
            ++ "h. The 90-minute focus/break cycle is backed by research." |}.

Definition daily_warning (avgDailyHours : Q) : Warning :=
  {| level := alert;
     msg := toFixed1 avgDailyHours
            ++ "h/day average. That's a full workday of sitting. Stretch. Now." |}.

(** The health warnings, pushed one after the other. *)
Definition health_warnings (sessions : list Session) (maxStreak : Z)
           (avgDuration avgDailyHours : Q) : list Warning :=
  let warnings : list Warning := [] in
  let longSessions := longSessions_of sessions in
  let warnings :=
    if 0 <? list_length longSessions
    then (warnings ++ [long_session_warning (list_length longSessions)])%list
    else warnings in
  let warnings :=
    if HEALTH_WARN_CONSECUTIVE_DAYS <=? maxStreak
    then (warnings ++ [streak_warning maxStreak])%list
    else warnings in
  let warnings :=
    if Qlt_bool 2 avgDuration
    then (warnings ++ [average_warning avgDuration])%list
    else warnings in
  let warnings :=
    if Qlt_bool 6 avgDailyHours
    then (warnings ++ [daily_warning avgDailyHours])%list
    else warnings in
  warnings.

Section Analyze.
Context {host : Host}.

Definition localTime (t : Z) : Z := t + LocalTZA t.

(** The date key of [toLocaleDateString('en-CA')]. *)
Definition toLocaleDateString (t : Z) : Z := localTime t / MS_PER_DAY.

(** 1970-01-01 was a Thursday. *)
Definition getDay (t : Z) : Z := (toLocaleDateString t + 4) mod 7.

Definition getHours (t : Z) : Z := (localTime t mod MS_PER_DAY) / MS_PER_HOUR.

Definition group_by_date (sessions : list Session) : list (Z * DateEntry.t) :=
  fold_left
    (fun byDate s =>
       let day := toLocaleDateString (start s) in
       let entry :=
         match obj_get Z.eqb byDate day with
         | Some e => e
         | None => {| DateEntry.sessions := []; DateEntry.hours := 0 |}
         end in
       obj_set Z.eqb byDate day
               {| DateEntry.sessions := (DateEntry.sessions entry ++ [s])%list;
                  DateEntry.hours := (DateEntry.hours entry + durationHours s)%Q |})
    sessions [].

(** The body of [analyze] past its guard, [s0] being [sessions[0]]. *)
Definition analyze_nonempty (s0 : Session) (sessions : list Session)
  : AnalysisResult :=
  let totalHours := sum_hours durationHours sessions in
  let avgDuration := (totalHours / inject_Z (list_length sessions))%Q in
  let maxSessionBase := maxSessionBase_of sessions in
  let maxSession := longest_of maxSessionBase (hd s0 maxSessionBase) in
  let hasAutonomousSessions :=
    existsb (fun s => Qlt_bool MAX_INTERACTIVE_SESSION_HOURS (durationHours s))
            sessions in
  let byDate := group_by_date sessions in
  let activeDays := sort (fun a b => a - b) (map fst byDate) in
  let firstDay := hd 0 activeDays in
  let lastDay := last activeDays 0 in
  let totalDaysSpan :=
    Qceiling ((Date_of_key lastDay - Date_of_key firstDay) # Z.to_pos MS_PER_DAY) + 1 in
  let dowHours :=
    fold_left (fun dow s => array_add dow (getDay (start s)) (durationHours s))
              sessions (repeat 0%Q 7) in
  let dowNames := ["Sun"; "Mon"; "Tue"; "Wed"; "Thu"; "Fri"; "Sat"] in
  let hourBuckets :=
    fold_left (fun hb s => array_add hb (getHours (start s)) (durationHours s))
              sessions (repeat 0%Q 24) in
  let projectHours :=
    fold_left
      (fun ph s =>
         let p := project s in
         let old :=
           match obj_get String.eqb ph p with
           | Some h => if Qnonzero h then h else 0%Q
           | None => 0%Q
           end in
         obj_set String.eqb ph p (old + durationHours s)%Q)
      sessions [] in
  let maxStreak := longest_streak activeDays in
  let avgDailyHours := (totalHours / inject_Z (list_length activeDays))%Q in
  let warnings := health_warnings sessions maxStreak avgDuration avgDailyHours in
  let today := toLocaleDateString Date_now in
  let sevenDaysAgo := toLocaleDateString (Date_now - 7 * 24 * 60 * 60 * 1000) in
  let recent7 := filter (fun d => (sevenDaysAgo <? d) && (d <=? today)) activeDays in
  let recent7Hours :=
    sum_hours
      (fun d => match obj_get Z.eqb byDate d with
                | Some e => DateEntry.hours e
                | None => 0%Q
                end)
      recent7 in
  {| totalSessions := list_length sessions;
          totalHours := totalHours;
          avgDuration := avgDuration;
          maxSession := maxSession;
          hasAutonomousSessions := hasAutonomousSessions;
          activeDays := activeDays;
          totalDaysSpan := totalDaysSpan;
          byDate := byDate;
          dowHours := dowHours;
          dowNames := dowNames;
          hourBuckets := hourBuckets;
          projectHours := projectHours;
          maxStreak := maxStreak;
          warnings := warnings;
          firstDay := firstDay;
          lastDay := lastDay;
          recent7Days := list_length recent7;
          recent7Hours := recent7Hours;
          avgDailyHours := avgDailyHours |}.

Definition analyze (sessions : list Session) : option AnalysisResult :=
  match sessions with
  | [] => None
  | s0 :: _ => Some (analyze_nonempty s0 sessions)
  end.
End Analyze.

(* ------------------------------------------------------------------ *)
(** ** JSON output *)

(** [Math.round(x * 100) / 100] *)
Definition round2 (x : Q) : Q := (inject_Z (Math_round (x * 100)) / 100)%Q.

Module ProjectEntry.
Record t : Type := { name : string; hours : Q }.
End ProjectEntry.

Module Json.
Record Averages : Type := { perSession : Q; perDay : Q }.
Record LongestSession : Type := { hours : Q; date : Z; project : string }.
Record Last7Days : Type := { hours7 : Q; activeDays7 : Z }.
Record t : Type := {
  version : string;
  totalSessions : Z;
  totalHours : Q;
  activeDays : Z;
  totalDaysSpan : Z;
  firstSeen : Z;
  lastSeen : Z;
  averages : Averages;
  longestSession : LongestSession;
  hoursByDayOfWeek : list (string * Q);
  topProjects : list ProjectEntry.t;
  streak : Z;
  healthWarnings : list string;
  last7Days : Last7Days
}.
End Json.

Section BuildJsonOutput.
Context {host : Host}.

Definition buildJsonOutput (stats : AnalysisResult) : Json.t :=
  let dowNames := ["Sun"; "Mon"; "Tue"; "Wed"; "Thu"; "Fri"; "Sat"] in
  let hoursByDayOfWeek :=
    fold_left
      (fun o i =>
         obj_set String.eqb o (nth (Z.to_nat i) dowNames "")
                 (round2 (nth (Z.to_nat i) (dowHours stats) 0%Q)))
      [0; 1; 2; 3; 4; 5; 6] [] in
  let topProjects :=
    map (fun e => {| ProjectEntry.name := fst e;
                     ProjectEntry.hours := round2 (snd e) |})
        (sort (fun a b => Qcompare_sign (snd b - snd a))
              (Object_entries (projectHours stats))) in
  let ms := maxSession stats in
  {| Json.version := "1.0";
     Json.totalSessions := totalSessions stats;
     Json.totalHours := round2 (totalHours stats);
     Json.activeDays := list_length (activeDays stats);
     Json.totalDaysSpan := totalDaysSpan stats;
     Json.firstSeen := firstDay stats;
     Json.lastSeen := lastDay stats;
     Json.averages :=
       {| Json.perSession := round2 (avgDuration stats);
          Json.perDay := round2 (avgDailyHours stats) |};
     Json.longestSession :=
       {| Json.hours := round2 (durationHours ms);
          Json.date := toLocaleDateString (start ms);
          Json.project := project ms |};
     Json.hoursByDayOfWeek := hoursByDayOfWeek;
     Json.topProjects := topProjects;
     Json.streak := maxStreak stats;
     Json.healthWarnings := map msg (warnings stats);
     Json.last7Days :=
       {| Json.hours7 := round2 (recent7Hours stats);
          Json.activeDays7 := recent7Days stats |} |}.
End BuildJsonOutput.

(* ------------------------------------------------------------------ *)
(** ** Main *)

(** What the program writes to standard output. *)
Inductive Printed : Type :=
| Text (s : string)
| ErrorObject (error : string)
| JsonReport (report : Json.t)
| Display (stats : AnalysisResult).

Section Main.
Context {host : Host}.

(** The run of [main]: what was printed, and the exit code ([process.exit(1)]
    ends the run at once; a run that reaches the end exits with 0). *)
Definition main (jsonMode : bool) (homedir : Node) : list Printed * Z :=
  let claudeDir := child homedir ".claude" in
  let out : list Printed :=
    if negb jsonMode then [Text "  Scanning sessions..."] else [] in
  let sessions := scanSessions claudeDir in
  let out :=
    (* the line is blanked; the carriage returns are left out *)
    if negb jsonMode then (out ++ [Text "                        "])%list else out in
  if list_length sessions =? 0 then
    if jsonMode then
      ((out ++ [ErrorObject "No sessions found"])%list, 1)
    else
      ((out ++ [Text "  No Claude Code sessions found in ~/.claude/projects/";
                Text "  Run Claude Code at least once to generate session data."])%list, 1)
  else
    match analyze sessions with
    | None =>
        if jsonMode then
          ((out ++ [ErrorObject "Could not analyze sessions"])%list, 1)
        else
          ((out ++ [Text "  Could not analyze sessions."])%list, 1)
    | Some stats =>
        if jsonMode then
          ((out ++ [JsonReport (buildJsonOutput stats)])%list, 0)
        else
          ((out ++ [Display stats])%list, 0)
    end.
End Main.

(* ------------------------------------------------------------------ *)
(** ** A reference host

    One implementation of [Host], used to run the program on concrete
    transcripts.  It reads JSON text by the grammar of ECMA-404 (numbers
    become exact rationals, a [\u] escape becomes the UTF-8 bytes of its
    code unit), it reads dates in the date-time string format of the
    language (a text in any other format is not a date), its time zone is
    UTC and its clock is fixed. *)

Module Reference.

Definition quote : ascii := "034"%char.
Definition backslash : ascii := "\"%char.

Definition code (c : ascii) : Z := Z.of_N (N_of_ascii c).
Definition char_of (n : Z) : ascii := ascii_of_N (Z.to_N n).

Definition is_digit (c : ascii) : bool := (48 <=? code c) && (code c <=? 57).

Definition is_json_ws (c : ascii) : bool :=
  (code c =? 32) || (code c =? 9) || (code c =? 10) || (code c =? 13).

Fixpoint skip_ws (s : string) : string :=
  match s with
  | String c s' => if is_json_ws c then skip_ws s' else s
  | EmptyString => EmptyString
  end.

(** The leading digits of a text and what follows them. *)
Fixpoint span_digits (s : string) : string * string :=
  match s with
  | String c s' =>
      if is_digit c then let (ds, rest) := span_digits s' in (String c ds, rest)
      else (EmptyString, s)
  | EmptyString => (EmptyString, EmptyString)
  end.

Definition digits_to_Z (ds : string) : Z :=
  match digits_value ds 0 with
  | Some n => n
  | None => 0
  end.

Definition pow10 (e : Z) : Q :=
  if 0 <=? e then inject_Z (10 ^ e) else (1 # Z.to_pos (10 ^ (- e)))%Q.

Definition parse_number (s : string) : option (Q * string) :=
  let (negative, s) :=
    match s with
    | String "-" s' => (true, s')
    | _ => (false, s)
    end in
  let (int_digits, s) := span_digits s in
  if negb (nonempty int_digits) then None else
  if (1 <? str_length int_digits) && startsWith int_digits "0" then None else
  match
    match s with
    | String "." s' =>
        let (ds, rest) := span_digits s' in
        if nonempty ds then Some (ds, rest) else None
    | _ => Some (EmptyString, s)
    end
  with
  | None => None
  | Some (frac_digits, s) =>
      match
        match s with
        | String c s' =>
            if (Ascii.eqb c "e" || Ascii.eqb c "E")%bool then
              let (exp_negative, s'') :=
                match s' with
                | String "-" t => (true, t)
                | String "+" t => (false, t)
                | _ => (false, s')
                end in
              let (ds, rest) := span_digits s'' in
              if nonempty ds
              then Some ((if exp_negative then - digits_to_Z ds else digits_to_Z ds), rest)
              else None
            else Some (0, s)
        | EmptyString => Some (0, s)
        end
      with
      | None => None
      | Some (exponent, rest) =>
          let mantissa := digits_to_Z (int_digits ++ frac_digits) in
          let magnitude :=
            (inject_Z mantissa * pow10 (exponent - str_length frac_digits))%Q in
          Some ((if negative then - magnitude else magnitude)%Q, rest)
      end
  end.

Definition hex_value (c : ascii) : option Z :=
  let n := code c in
  if (48 <=? n) && (n <=? 57) then Some (n - 48)
  else if (65 <=? n) && (n <=? 70) then Some (n - 55)
  else if (97 <=? n) && (n <=? 102) then Some (n - 87)
  else None.

(** The UTF-8 bytes of one code unit. *)
Definition utf8 (u : Z) : string :=
  if u <? 128 then String (char_of u) ""
  else if u <? 2048 then
    String (char_of (192 + u / 64)) (String (char_of (128 + u mod 64)) "")
  else
    String (char_of (224 + u / 4096))
      (String (char_of (128 + (u / 64) mod 64))
         (String (char_of (128 + u mod 64)) "")).

(** The characters of a string literal after its opening quote. *)
Fixpoint parse_string (fuel : nat) (s : string) : option (string * string) :=
  match fuel with
  | O => None
  | S fuel' =>
      match s with
      | EmptyString => None
      | String c rest =>
          if Ascii.eqb c quote then Some (EmptyString, rest)
          else if Ascii.eqb c backslash then
            match rest with
            | String e rest' =>
                let simple (ch : ascii) :=
                  match parse_string fuel' rest' with
                  | Some (body, after) => Some (String ch body, after)
                  | None => None
                  end in
                if Ascii.eqb e quote then simple quote
                else if Ascii.eqb e backslash then simple backslash
                else if Ascii.eqb e "/" then simple "/"%char
                else if Ascii.eqb e "b" then simple "008"%char
                else if Ascii.eqb e "f" then simple "012"%char
                else if Ascii.eqb e "n" then simple "010"%char
                else if Ascii.eqb e "r" then simple "013"%char
                else if Ascii.eqb e "t" then simple "009"%char
                else if Ascii.eqb e "u" then
                  match rest' with
                  | String h1 (String h2 (String h3 (String h4 rest''))) =>
                      match hex_value h1, hex_value h2, hex_value h3, hex_value h4 with
                      | Some a, Some b, Some c', Some d =>
                          match parse_string fuel' rest'' with
                          | Some (body, after) =>
                              Some (utf8 (((a * 16 + b) * 16 + c') * 16 + d) ++ body, after)
                          | None => None
                          end
                      | _, _, _, _ => None
                      end
                  | _ => None
                  end
                else None
            | EmptyString => None
            end
          else if code c <? 32 then None
          else
            match parse_string fuel' rest with
            | Some (body, after) => Some (String c body, after)
            | None => None
            end
      end
  end.

Definition parse_literal (word : string) (v : JSValue) (s : string)
  : option (JSValue * string) :=
  if startsWith s word then Some (v, substring_from s (str_length word)) else None.

Fixpoint parse_value (fuel : nat) (s : string) : option (JSValue * string) :=
  match fuel with
  | O => None
  | S fuel' =>
      match skip_ws s with
      | EmptyString => None
      | String c rest =>
          if Ascii.eqb c "{" then
            match skip_ws rest with
            | String "}" after => Some (JObject [], after)
            | _ => parse_members fuel' rest []
            end
          else if Ascii.eqb c "[" then
            match skip_ws rest with
            | String "]" after => Some (JArray [], after)
            | _ => parse_elements fuel' rest []
            end
          else if Ascii.eqb c quote then
            match parse_string (S (String.length rest)) rest with
            | Some (str, after) => Some (JString str, after)
            | None => None
            end
          else if Ascii.eqb c "t" then parse_literal "true" (JBool true) (String c rest)
          else if Ascii.eqb c "f" then parse_literal "false" (JBool false) (String c rest)
          else if Ascii.eqb c "n" then parse_literal "null" JNull (String c rest)
          else
            match parse_number (String c rest) with
            | Some (q, after) => Some (JNumber q, after)
            | None => None
            end
      end
  end
with parse_elements (fuel : nat) (s : string) (acc : list JSValue)
  : option (JSValue * string) :=
  match fuel with
  | O => None
  | S fuel' =>
      match parse_value fuel' s with
      | None => None
      | Some (v, rest) =>
          match skip_ws rest with
          | String "," after => parse_elements fuel' after (acc ++ [v])%list
          | String "]" after => Some (JArray (acc ++ [v])%list, after)
          | _ => None
          end
      end
  end
with parse_members (fuel : nat) (s : string) (acc : list (string * JSValue))
  : option (JSValue * string) :=
  match fuel with
  | O => None
  | S fuel' =>
      match skip_ws s with
      | String c rest =>
          if Ascii.eqb c quote then
            match parse_string (S (String.length rest)) rest with
            | None => None
            | Some (key, rest) =>
                match skip_ws rest with
                | String ":" rest =>
                    match parse_value fuel' rest with
                    | None => None
                    | Some (v, rest) =>
                        match skip_ws rest with
                        | String "," after =>
                            parse_members fuel' after (acc ++ [(key, v)])%list
                        | String "}" after =>
                            Some (JObject (acc ++ [(key, v)])%list, after)
                        | _ => None
                        end
                    end
                | _ => None
                end
            end
          else None
      | EmptyString => None
      end
  end.

Definition JSON_parse (text : string) : Completion JSValue :=
  match parse_value (S (S (String.length text))) text with
  | Some (v, rest) =>
      match skip_ws rest with
      | EmptyString => Normal v
      | String _ _ => Throw
      end
  | None => Throw
  end.

(** Days from 1970-01-01 to a date of the proleptic Gregorian calendar. *)
Definition days_from_civil (y m d : Z) : Z :=
  let y := if m <=? 2 then y - 1 else y in
  let era := y / 400 in
  let yoe := y - era * 400 in
  let doy := (153 * (if 2 <? m then m - 3 else m + 9) + 2) / 5 + d - 1 in
  let doe := yoe * 365 + yoe / 4 - yoe / 100 + doy in
  era * 146097 + doe - 719468.

Definition is_leap (y : Z) : bool :=
  ((y mod 4 =? 0) && negb (y mod 100 =? 0)) || (y mod 400 =? 0).

Definition days_in_month (y m : Z) : Z :=
  if m =? 2 then (if is_leap y then 29 else 28)
  else if (m =? 4) || (m =? 6) || (m =? 9) || (m =? 11) then 30
  else 31.

(** A field of exactly [n] digits. *)
Definition field (n : Z) (s : string) : option (Z * string) :=
  let ds := substring_to s n in
  if str_length ds =? n then
    match digits_value ds 0 with
    | Some v => Some (v, substring_from s n)
    | None => None
    end
  else None.

Definition expect (c : ascii) (s : string) : option string :=
  match s with
  | String d rest => if Ascii.eqb c d then Some rest else None
  | EmptyString => None
  end.

Definition optional_field (sep : ascii) (n : Z) (s : string)
  : option (option Z * string) :=
  match s with
  | String c rest =>
      if Ascii.eqb c sep then
        match field n rest with
        | Some (v, rest') => Some (Some v, rest')
        | None => None
        end
      else Some (None, s)
  | EmptyString => Some (None, s)
  end.

(** YYYY, YYYY-MM or YYYY-MM-DD, the year also as a sign and six digits. *)
Definition parse_date (s : string) : option (Z * string) :=
  match
    match s with
    | String "+" s' => field 6 s'
    | String "-" s' =>
        match field 6 s' with
        | Some (y, rest) => if y =? 0 then None else Some (- y, rest)
        | None => None
        end
    | _ => field 4 s
    end
  with
  | None => None
  | Some (y, s) =>
      match optional_field "-" 2 s with
      | None => None
      | Some (None, s) => Some (days_from_civil y 1 1, s)
      | Some (Some m, s) =>
          match optional_field "-" 2 s with
          | None => None
          | Some (d, s) =>
              let d := match d with Some d => d | None => 1 end in
              if (1 <=? m) && (m <=? 12) && (1 <=? d) && (d <=? days_in_month y m)
              then Some (days_from_civil y m d, s)
              else None
          end
      end
  end.

(** HH:mm, HH:mm:ss or HH:mm:ss.sss, in milliseconds. *)
Definition parse_time (s : string) : option (Z * string) :=
  match field 2 s with
  | None => None
  | Some (h, s) =>
      match expect ":" s with
      | None => None
      | Some s =>
          match field 2 s with
          | None => None
          | Some (mi, s) =>
              match optional_field ":" 2 s with
              | None => None
              | Some (sec, s) =>
                  match
                    match sec with
                    | Some _ => optional_field "." 3 s
                    | None => Some (None, s)
                    end
                  with
                  | None => None
                  | Some (ms, s) =>
                      let sec := match sec with Some v => v | None => 0 end in
                      let ms := match ms with Some v => v | None => 0 end in
                      if ((h <=? 23) && (mi <=? 59) && (sec <=? 59))
                         || ((h =? 24) && (mi =? 0) && (sec =? 0) && (ms =? 0))
                      then Some (((h * 60 + mi) * 60 + sec) * 1000 + ms, s)
                      else None
                  end
              end
          end
      end
  end.

(** Z or a signed HH:mm, in milliseconds; no offset is local time, which
    is UTC for this host. *)
Definition parse_offset (s : string) : option Z :=
  match s with
  | EmptyString => Some 0
  | String "Z" EmptyString => Some 0
  | String c rest =>
      if (Ascii.eqb c "+" || Ascii.eqb c "-")%bool then
        match field 2 rest with
        | None => None
        | Some (h, rest) =>
            match expect ":" rest with
            | None => None
            | Some rest =>
                match field 2 rest with
                | Some (mi, EmptyString) =>
                    if (h <=? 23) && (mi <=? 59) then
                      let off := (h * 60 + mi) * 60 * 1000 in
                      Some (if Ascii.eqb c "-" then - off else off)
                    else None
                | _ => None
                end
            end
        end
      else None
  end.

(** The date-time string format of the language; a text in any other
    format is not a date. *)
Definition Date_parse (s : string) : option Z :=
  match parse_date s with
  | None => None
  | Some (days, EmptyString) =>
      let t := days * MS_PER_DAY in
      if Z.abs t <=? 8640000000000000 then Some t else None
  | Some (days, String c rest) =>
      if Ascii.eqb c "T" then
        match parse_time rest with
        | None => None
        | Some (ms, rest) =>
            match parse_offset rest with
            | None => None
            | Some off =>
                let t := days * MS_PER_DAY + ms - off in
                if Z.abs t <=? 8640000000000000 then Some t else None
            end
        end
      else None
  end.

(** The text of a number that a JSON literal denotes: its decimal
    expansion (exact for the literals of up to 15 significant digits
    between 1e-6 and 1e21). *)
Fixpoint strip_zeros (fuel : nat) (n k : Z) : Z * Z :=
  match fuel with
  | O => (n, k)
  | S fuel' =>
      if (0 <? k) && (n mod 10 =? 0) then strip_zeros fuel' (n / 10) (k - 1) else (n, k)
  end.

Fixpoint denominator_digits (fuel : nat) (d : Z) : Z :=
  match fuel with
  | O => 0
  | S fuel' => if d <=? 1 then 0 else 1 + denominator_digits fuel' (d / 10)
  end.

Fixpoint zeros (n : nat) : string :=
  match n with
  | O => EmptyString
  | S n' => String "0" (zeros n')
  end.

Definition Number_toString (q : Q) : string :=
  let negative := Qlt_bool q 0 in
  let num := Z.abs (Qnum q) in
  let den := Z.pos (Qden q) in
  let k0 := denominator_digits (Pos.to_nat (Pos.size (Qden q))) den in
  let scaled := num * 10 ^ k0 / den in
  let (n, k) := strip_zeros (Z.to_nat k0) scaled k0 in
  let int_part := n / 10 ^ k in
  let frac := Z_toString (n mod 10 ^ k) in
  (if negative then "-" else "") ++ Z_toString int_part
  ++ (if k =? 0 then ""
      else "." ++ zeros (Z.to_nat (k - str_length frac)) ++ frac).

(** The string conversion applied by [new Date] to a value that is
    not a string. *)
Fixpoint ToString (v : JSValue) : string :=
  match v with
  | JUndefined => "undefined"
  | JNull => "null"
  | JBool b => if b then "true" else "false"
  | JNumber q => Number_toString q
  | JString s => s
  | JArray xs =>
      join ","
        (map (fun x => match x with
                       | JUndefined | JNull => ""
                       | _ => ToString x
                       end) xs)
  | JObject _ => "[object Object]"
  end.

Definition host (now : Z) : Host :=
  Build_Host JSON_parse Date_parse ToString (fun _ => 0) now.
End Reference.

(** Transcript lines are written with single quotes standing for the
    double quotes of JSON. *)
Fixpoint jsonl (s : string) : string :=
  match s with
  | EmptyString => EmptyString
  | String c s' => String (if Ascii.eqb c "'" then Reference.quote else c) (jsonl s')
  end.

(* ------------------------------------------------------------------ *)
(** ** A transcript store to run the program on *)

Module Example.
(** The clock reads 2024-01-02T00:00:00Z. *)
Definition host : Host := Reference.host 1704153600000.

Definition line (time : string) : string :=
  jsonl ("{'type':'user','timestamp':'" ++ time ++ "'}") ++ String newline "".

Definition transcript (times : list string) : Node :=
  File true (String.concat "" (map line times)).

Definition morning : Node :=
  transcript ["2024-01-01T09:00:00.000Z"; "2024-01-01T09:40:00.000Z";
              "2024-01-01T10:30:00.000Z"].
Definition short : Node :=
  transcript ["2024-01-01T09:00:00.000Z"; "2024-01-01T09:05:00.000Z"].
Definition single : Node := transcript ["2024-01-01T14:00:00.000Z"].
Definition reversed : Node :=
  transcript ["2024-01-01T10:30:00.000Z"; "2024-01-01T09:00:00.000Z"].
Definition week_long : Node :=
  transcript ["2024-01-01T09:00:00.000Z"; "2024-01-08T09:00:00.000Z"].
Definition tiny : Node := File true (jsonl "{'timestamp':'2024-01-01T09:00:00.000Z'}").
Definition undated : Node :=
  transcript ["garbage"; "2024-01-01T09:00:00.000Z"].

Definition project_foo : Node :=
  Dir 4096 true
      [("single.jsonl", single);
       ("morning.jsonl", morning);
       ("reversed.jsonl", reversed);
       ("week_long.jsonl", week_long);
       ("tiny.jsonl", tiny);
       ("undated.jsonl", undated);
       ("notes.txt", morning);
       ("morning",
        Dir 4096 true [("subagents", Dir 4096 true [("agent.jsonl", short)])])].

Definition homedir : Node :=
  Dir 4096 true
      [(".claude",
        Dir 4096 true
            [("projects",
              Dir 4096 true [("-home-alice-projects-foo", project_foo)])])].

Definition claudeDir : Node := child homedir ".claude".

(** A store whose only transcript runs for ten hours. *)
Definition overnight : Node :=
  transcript ["2024-01-01T00:00:00.000Z"; "2024-01-01T10:00:00.000Z"].

Definition overnight_homedir : Node :=
  Dir 4096 true
      [(".claude",
        Dir 4096 true
            [("projects",
              Dir 4096 true
                  [("-home-alice-projects-loop",
                    Dir 4096 true [("run.jsonl", overnight)])])])].

(** The session that [addSession] records for a file with these edges. *)
Definition session (project : string) (start end_ size : Z) : Session :=
  {| project := project; start := start; end_ := end_;
     durationHours := (end_ - start) # Z.to_pos MS_PER_HOUR; sizeBytes := size |}.

Definition ten_hours : Session := session "loop" 1704067200000 1704103200000 110.
Definition three_hours : Session := session "foo" 0 10800000 120.
Definition just_under_three : Session := session "foo" 0 10796400 120.
Definition hour_in_a : Session := session "a" 0 3600000 120.
Definition hour_in_b : Session := session "b" 3600000 7200000 120.

(** A file of blank lines. *)
Definition blank : string :=
  "  " ++ String newline (" " ++ String newline (String newline "")).
End Example.

(* ------------------------------------------------------------------ *)
(** ** Vocabulary of the properties *)

(** What the guard of [addSession] establishes for a session it records. *)
Record valid_session (s : Session) : Prop := {
  valid_order : start s <= end_ s;
  valid_span : end_ s - start s < MS_PER_WEEK;
  valid_hours : durationHours s = (end_ s - start s) # Z.to_pos MS_PER_HOUR;
  valid_size : 50 <= sizeBytes s
}.

(** The instants that a file yields for its two edge lines. *)
Definition derived_endpoints {host : Host} (filePath : Node) (t0 t1 : Z) : Prop :=
  exists lines,
    readFirstLastLine filePath = Normal (Some lines)
    /\ parseTimestamp (firstLine lines) = Some (ValidDate t0)
    /\ parseTimestamp (lastLine lines) = Some (ValidDate t1).

(** A path segment: text that is not empty and holds no delimiter. *)
Definition segment (s : string) : Prop := s <> "" /\ indexOf s dash = -1.

(** The directory name of a path: every separator becomes the delimiter. *)
Fixpoint encode (segments : list string) : string :=
  match segments with
  | [] => ""
  | s :: rest => String dash (s ++ encode rest)
  end.

(** An entry that is present when its condition holds. *)
Definition entry_when (condition : bool) (w : Warning) : list Warning :=
  if condition then [w] else [].

(** [run S d k]: the [k] days from [d] on all belong to [S]. *)
Definition run (S : Z -> Prop) (d k : Z) : Prop :=
  forall i, 0 <= i < k -> S (d + i).

(** What the streak loop knows after the days [P], the last of which is
    [prev]: [cur] is the length of the run that ends at [prev], [max] the
    length of the longest run. *)
Record streak_invariant (P : Z -> Prop) (prev max cur : Z) : Prop := {
  inv_bounds : 1 <= cur <= max;
  inv_current : forall i, 0 <= i < cur -> P (prev - i);
  inv_before : ~ P (prev - cur);
  inv_last : forall x, P x -> x <= prev;
  inv_reached : exists d, run P d max;
  inv_longest : forall d k, run P d k -> k <= max
}.

(** A local calendar day on which some session starts. *)
Definition active {host : Host} (sessions : list Session) (day : Z) : Prop :=
  exists s, In s sessions /\ toLocaleDateString (start s) = day.

(** [v] is [raw] rounded to two decimal places: a whole number of
    hundredths, the nearest to [raw], the upper one of two equally near. *)
Definition two_decimals (raw v : Q) : Prop :=
  exists k : Z,
    v = (inject_Z k / 100)%Q
    /\ (raw * 100 - (1 # 2) < inject_Z k)%Q
    /\ (inject_Z k <= raw * 100 + (1 # 2))%Q.

(* ================================================================== *)
(** * Properties *)

(** ** Lists, sorting and objects *)

Lemma list_length_nonneg {A : Type} (xs : list A) : 0 <= list_length xs.
Proof. unfold list_length. lia. Qed.

Lemma list_length_zero {A : Type} (xs : list A) : list_length xs = 0 <-> xs = [].
Proof.
  unfold list_length. destruct xs as [|x xs]; simpl; split; intro H;
    try reflexivity; try discriminate; lia.
Qed.

Lemma list_length_pos {A : Type} (xs : list A) :
  (0 <? list_length xs) = true <-> xs <> [].
Proof.
  rewrite Z.ltb_lt. pose proof (list_length_zero xs) as Hz.
  pose proof (list_length_nonneg xs). split.
  - intros Hlt Hnil. apply Hz in Hnil. lia.
  - intros Hne. destruct (Z.eq_dec (list_length xs) 0) as [E|E]; [|lia].
    apply Hz in E. contradiction.
Qed.

Section SortFacts.
Context {A : Type} (cmp : A -> A -> Z) (le : A -> A -> Prop).
Hypothesis le_trans : forall x y z, le x y -> le y z -> le x z.
Hypothesis cmp_le : forall x y, cmp x y <= 0 -> le x y.
Hypothesis cmp_gt : forall x y, 0 < cmp x y -> le y x.

Lemma sort_insert_perm (x : A) (l : list A) :
  Permutation (x :: l) (sort_insert cmp x l).
Proof.
  induction l as [|y l IH]; simpl.
  - apply Permutation_refl.
  - destruct (cmp x y <=? 0).
    + apply Permutation_refl.
    + eapply perm_trans; [apply perm_swap|]. apply perm_skip, IH.
Qed.

Lemma sort_perm (l : list A) : Permutation l (sort cmp l).
Proof.
  induction l as [|x l IH]; simpl.
  - apply perm_nil.
  - eapply perm_trans; [apply perm_skip, IH|]. apply sort_insert_perm.
Qed.

Lemma sort_In (l : list A) (x : A) : In x (sort cmp l) <-> In x l.
Proof.
  split; apply Permutation_in; [apply Permutation_sym|]; apply sort_perm.
Qed.

Lemma sort_insert_sorted (x : A) (l : list A) :
  StronglySorted le l -> StronglySorted le (sort_insert cmp x l).
Proof.
  induction 1 as [|y l Hs IH Hall]; simpl.
  - constructor; constructor.
  - destruct (cmp x y <=? 0) eqn:E.
    + apply Z.leb_le in E. constructor.
      * constructor; assumption.
      * constructor; [apply cmp_le; assumption|].
        rewrite Forall_forall in *. intros z Hz.
        eapply le_trans; [apply cmp_le; eassumption|]. apply Hall, Hz.
    + apply Z.leb_gt in E. constructor; [assumption|].
      rewrite Forall_forall in *. intros z Hz.
      apply (Permutation_in _ (Permutation_sym (sort_insert_perm x l))) in Hz.
      destruct Hz as [<-|Hz]; [apply cmp_gt; assumption|apply Hall, Hz].
Qed.

Lemma sort_sorted (l : list A) : StronglySorted le (sort cmp l).
Proof.
  induction l as [|x l IH]; simpl.
  - constructor.
  - apply sort_insert_sorted, IH.
Qed.
End SortFacts.

Lemma fold_left_invariant {A B : Type} (P : A -> Prop) (f : A -> B -> A)
      (l : list B) (init : A) :
  (forall acc x, P acc -> P (f acc x)) -> P init -> P (fold_left f l init).
Proof.
  intros Hstep. revert init. induction l as [|x l IH]; simpl; intros init Hinit.
  - exact Hinit.
  - apply IH, Hstep, Hinit.
Qed.

(** ** SessionScanner *)

Lemma valid_session_hours (s : Session) :
  valid_session s -> (0 <= durationHours s)%Q /\ (durationHours s < 168)%Q.
Proof.
  intros [Ho Hs Hh _]. rewrite Hh. unfold Qle, Qlt, MS_PER_WEEK in *. simpl.
  change (Z.pos (Z.to_pos MS_PER_HOUR)) with 3600000. lia.
Qed.

Section ScannerFacts.
Context {host : Host}.

Lemma addSession_cases (filePath : Node) (project : string) (sessions : list Session) :
  addSession filePath project sessions = sessions
  \/ exists s, addSession filePath project sessions = (sessions ++ [s])%list
               /\ valid_session s
               /\ stat filePath = Some {| st_size := sizeBytes s; st_isDirectory := false |}
               /\ derived_endpoints filePath (start s) (end_ s).
Proof.
  unfold addSession.
  destruct filePath as [readable content| |]; simpl; try (left; reflexivity).
  - destruct (str_length content <? 50) eqn:Esize; [left; reflexivity|].
    destruct readable; simpl; [|left; reflexivity].
    destruct (readFirstLastLine_open content) as [lines|] eqn:Elines;
      [|left; reflexivity].
    destruct (parseTimestamp (firstLine lines)) as [[t0|]|] eqn:E0;
      try (left; reflexivity);
      destruct (parseTimestamp (lastLine lines)) as [[t1|]|] eqn:E1;
      try (left; reflexivity).
    destruct ((0 <=? t1 - t0) && (t1 - t0 <? MS_PER_WEEK)) eqn:Eguard;
      [|left; reflexivity].
    right. eexists. split; [reflexivity|].
    apply andb_true_iff in Eguard. destruct Eguard as [Hge Hlt].
    apply Z.leb_le in Hge. apply Z.ltb_lt in Hlt. apply Z.ltb_ge in Esize.
    split; [|split].
    + constructor; simpl; try reflexivity; lia.
    + reflexivity.
    + exists lines. simpl. rewrite Elines. auto.
  - destruct (size <? 50); reflexivity || (left; reflexivity).
Qed.

Lemma addSession_valid (filePath : Node) (project : string) (sessions : list Session) :
  Forall valid_session sessions ->
  Forall valid_session (addSession filePath project sessions).
Proof.
  intros Hall.
  destruct (addSession_cases filePath project sessions) as [->|[s [-> [Hs _]]]].
  - exact Hall.
  - apply Forall_app. split; [exact Hall|]. constructor; [exact Hs|constructor].
Qed.

Lemma scanProject_valid (projectsDir : Node) (sessions : list Session)
      (projDir : string) :
  Forall valid_session sessions ->
  Forall valid_session (scanProject projectsDir sessions projDir).
Proof.
  intros Hall. unfold scanProject.
  destruct (negb (isDirectory (stat (child projectsDir projDir)))); [exact Hall|].
  destruct (readdir (child projectsDir projDir)) as [files|]; [|exact Hall].
  apply fold_left_invariant.
  - intros acc file Hacc.
    destruct (negb (isDirectory (stat (child (child (child projectsDir projDir) file)
                                              "subagents")))); [exact Hacc|].
    destruct (readdir (child (child (child projectsDir projDir) file) "subagents"))
      as [subFiles|]; [|exact Hacc].
    apply fold_left_invariant; [|exact Hacc].
    intros acc' sf Hacc'. destruct (negb (endsWith sf ".jsonl")); [exact Hacc'|].
    apply addSession_valid, Hacc'.
  - apply fold_left_invariant; [|exact Hall].
    intros acc file Hacc. destruct (negb (endsWith file ".jsonl")); [exact Hacc|].
    apply addSession_valid, Hacc.
Qed.

Lemma scanSessions_valid (claudeDir : Node) :
  Forall valid_session (scanSessions claudeDir).
Proof.
  unfold scanSessions.
  destruct (readdir (child claudeDir "projects")) as [projectDirs|]; [|constructor].
  rewrite Forall_forall. intros s Hs. apply sort_In in Hs. revert s Hs.
  rewrite <- Forall_forall. apply fold_left_invariant.
  - intros acc projDir Hacc. apply scanProject_valid, Hacc.
  - constructor.
Qed.

(** C1. Every session in the scanner's output has a duration of at least 0
    and under 168 hours and comes from a file of at least 50 bytes; a file
    under 50 bytes, a file whose end instant precedes its start, and a file
    that spans 168 hours or more add no session. *)
Theorem scanned_sessions_within_bounds (claudeDir : Node) :
  (forall s, In s (scanSessions claudeDir) ->
     (0 <= durationHours s)%Q /\ (durationHours s < 168)%Q /\ 50 <= sizeBytes s)
  /\
  (forall filePath project sessions,
     (exists st, stat filePath = Some st /\ st_size st < 50)
     \/ (exists t0 t1, derived_endpoints filePath t0 t1
                       /\ (t1 < t0 \/ 168 * MS_PER_HOUR <= t1 - t0)) ->
     addSession filePath project sessions = sessions).
Proof.
  split.
  - intros s Hs.
    pose proof (scanSessions_valid claudeDir) as Hall.
    rewrite Forall_forall in Hall. specialize (Hall s Hs).
    destruct (valid_session_hours s Hall) as [H0 H168].
    split; [exact H0|]. split; [exact H168|]. apply (valid_size s Hall).
  - intros filePath project sessions [[st [Hst Hsmall]]|[t0 [t1 [Hends Hbad]]]].
    + unfold addSession. rewrite Hst.
      apply Z.ltb_lt in Hsmall. rewrite Hsmall. reflexivity.
    + destruct Hends as [lines [Hread [H0 H1]]].
      unfold addSession. destruct (stat filePath) as [st|]; [|reflexivity].
      destruct (st_size st <? 50); [reflexivity|].
      rewrite Hread. simpl. rewrite H0, H1.
      replace ((0 <=? t1 - t0) && (t1 - t0 <? MS_PER_WEEK)) with false; [reflexivity|].
      symmetry. apply andb_false_iff.
      unfold MS_PER_WEEK, MS_PER_HOUR in *.
      destruct Hbad as [Hrev|Hlong]; [left; apply Z.leb_gt|right; apply Z.ltb_ge]; lia.
Qed.

(** C7. Whatever the order in which directories list their entries, the
    list that the scanner returns is in ascending order of [start]. *)
Theorem scanSessions_sorted_by_start (claudeDir : Node) :
  StronglySorted (fun a b => start a <= start b) (scanSessions claudeDir).
Proof.
  unfold scanSessions.
  destruct (readdir (child claudeDir "projects")) as [projectDirs|]; [|constructor].
  apply sort_sorted; intros; lia.
Qed.
End ScannerFacts.

(** ** TimestampExtractor *)

Section TimestampFacts.
Context {host : Host}.

Lemma parseTimestamp_present (jsonLine : string) (d : Date) :
  parseTimestamp jsonLine = Some d ->
  exists data ts,
    JSON_parse jsonLine = Normal data
    /\ truthy ts = true
    /\ (Get data "timestamp" = Normal ts
        \/ (exists falsy, Get data "timestamp" = Normal falsy /\ truthy falsy = false
                          /\ Get data "ts" = Normal ts))
    /\ d = new_Date ts.
Proof.
  unfold parseTimestamp, try_catch, bind.
  destruct (JSON_parse jsonLine) as [data|]; [|discriminate].
  destruct (Get data "timestamp") as [a|] eqn:Ea; [|discriminate].
  destruct (truthy a) eqn:Ta.
  - rewrite Ta. intros [= <-]. exists data, a. auto.
  - destruct (Get data "ts") as [b|] eqn:Eb; [|discriminate].
    destruct (truthy b) eqn:Tb; [|discriminate].
    intros [= <-]. exists data, b. repeat split; auto.
    right. exists a. auto.
Qed.

End TimestampFacts.

(** ** EdgeLineReader *)

Lemma str_length_nonneg (s : string) : 0 <= str_length s.
Proof. induction s as [|c s IH]; cbn [str_length]; lia. Qed.

Lemma substring_to_nonempty (s : string) (n : Z) :
  0 < n -> 0 < str_length s -> 0 < str_length (substring_to s n).
Proof.
  intros Hn Hs. destruct s as [|c s]; cbn [str_length substring_to] in *; [lia|].
  destruct (n <=? 0) eqn:E; [apply Z.leb_le in E; lia|].
  cbn [str_length]. pose proof (str_length_nonneg (substring_to s (n - 1))). lia.
Qed.

Lemma filter_none {A : Type} (f : A -> bool) (l : list A) :
  Forall (fun x => f x = false) l -> filter f l = [].
Proof.
  induction 1 as [|x l Hx _ IH]; simpl; [reflexivity|]. rewrite Hx. exact IH.
Qed.


(** ** ProjectPathNormalizer *)

Lemma indexOf_lower (s : string) (c : ascii) : -1 <= indexOf s c.
Proof.
  induction s as [|d s IH]; cbn [indexOf]; [lia|].
  destruct (Ascii.eqb d c); [lia|]. destruct (indexOf s c <? 0) eqn:E; [lia|].
  apply Z.ltb_ge in E. lia.
Qed.

Lemma indexOf_absent_cons (d : ascii) (s : string) (c : ascii) :
  indexOf (String d s) c = -1 -> Ascii.eqb d c = false /\ indexOf s c = -1.
Proof.
  cbn [indexOf]. destruct (Ascii.eqb d c); [discriminate|].
  pose proof (indexOf_lower s c) as Hlow. destruct (indexOf s c <? 0) eqn:E; intros Hidx.
  - apply Z.ltb_lt in E. split; [reflexivity|lia].
  - apply Z.ltb_ge in E. lia.
Qed.

Lemma append_empty_r (s : string) : (s ++ "")%string = s.
Proof. induction s as [|c s IH]; simpl; [reflexivity|]. rewrite IH. reflexivity. Qed.

Lemma split_not_nil (sep : ascii) (s : string) : split sep s <> [].
Proof.
  destruct s as [|c s]; cbn [split]; [discriminate|].
  destruct (Ascii.eqb c sep); [discriminate|]. destruct (split sep s); discriminate.
Qed.

Lemma split_append (sep : ascii) (s t : string) :
  indexOf s sep = -1 ->
  split sep (s ++ t) =
  match split sep t with
  | hd :: tl => (s ++ hd)%string :: tl
  | [] => [s]
  end.
Proof.
  induction s as [|c s IH]; intros Habs.
  - simpl. pose proof (split_not_nil sep t) as Hnil.
    destruct (split sep t); [contradiction|reflexivity].
  - apply indexOf_absent_cons in Habs. destruct Habs as [Hc Hs].
    cbn [append split]. rewrite Hc, (IH Hs).
    destruct (split sep t); reflexivity.
Qed.

Lemma split_encode_head (segments : list string) :
  exists tl, split dash (encode segments) = "" :: tl.
Proof.
  destruct segments as [|s rest]; simpl; eexists; reflexivity.
Qed.

Lemma nonempty_true (s : string) : s <> "" -> nonempty s = true.
Proof.
  intros H. unfold nonempty. destruct (String.eqb_spec s ""); [contradiction|reflexivity].
Qed.

Lemma parts_of_encode (segments : list string) :
  Forall segment segments ->
  filter nonempty (split dash (encode segments)) = segments.
Proof.
  induction 1 as [|s rest [Hne Hdash] _ IH]; [reflexivity|].
  cbn [encode split]. rewrite Ascii.eqb_refl. cbn [filter nonempty String.eqb negb].
  rewrite (split_append dash s (encode rest) Hdash).
  destruct (split_encode_head rest) as [tl Htl]. rewrite Htl in *.
  cbn [filter nonempty String.eqb negb] in IH. rewrite append_empty_r.
  cbn [filter]. rewrite (nonempty_true s Hne), IH. reflexivity.
Qed.

Lemma join_nonempty (sep : string) (s : string) (rest : list string) :
  s <> "" -> join sep (s :: rest) <> "".
Proof.
  intros Hs. destruct s as [|c s]; [contradiction|].
  destruct rest; simpl; discriminate.
Qed.

(** C6, as the code has it. [cleanProjectName] returns on every directory
    name: the temp label for a name that starts as a temp directory does;
    for the encoding of home/<user>/projects/<rest>, the user being one
    segment without the delimiter, the label <rest>; for the encoding of
    home/<user> the home label; for the encoding of home/<user>/<rest> that
    does not begin with projects the label <rest>; and unchanged a name that
    is not a temp name and whose segments are not home followed by
    another. *)
Theorem cleanProjectName_cases :
  (forall dirName, exists label, cleanProjectName dirName = label)
  /\ (forall dirName, startsWith dirName "-tmp" = true -> cleanProjectName dirName = "/tmp")
  /\ (forall user rest,
        segment user -> Forall segment rest -> rest <> [] ->
        cleanProjectName (encode ("home" :: user :: "projects" :: rest)) = join "-" rest)
  /\ (forall user, segment user -> cleanProjectName (encode ["home"; user]) = "~")
  /\ (forall user r rest,
        segment user -> Forall segment (r :: rest) -> r <> "projects" ->
        cleanProjectName (encode ("home" :: user :: r :: rest)) = join "-" (r :: rest))
  /\ (forall dirName,
        startsWith dirName "-tmp" = false ->
        (forall user rest, filter nonempty (split dash dirName) <> "home" :: user :: rest) ->
        cleanProjectName dirName = dirName).
Proof.
  assert (Hseg : forall s, segment s -> s <> "") by (intros s [H _]; exact H).
  assert (Hhome : segment "home") by (split; [discriminate|reflexivity]).
  assert (Hproj : segment "projects") by (split; [discriminate|reflexivity]).
  split; [|split; [|split; [|split; [|split]]]].
  - intros dirName. eexists. reflexivity.
  - intros dirName H. unfold cleanProjectName. rewrite H. reflexivity.
  - intros user rest Huser Hrest Hne. unfold cleanProjectName.
    replace (startsWith (encode ("home" :: user :: "projects" :: rest)) "-tmp")
      with false by reflexivity.
    rewrite parts_of_encode
      by (constructor; [exact Hhome|constructor; [exact Huser|constructor; assumption]]).
    destruct rest as [|r rest]; [contradiction|].
    cbn [hd_error String.eqb Ascii.eqb Bool.eqb andb length skipn].
    destruct (2 <=? Z.of_nat (S (S (S (S (length rest)))))) eqn:E1;
      [|apply Z.leb_gt in E1; lia].
    destruct (Z.of_nat (S (S (length rest))) =? 0) eqn:E2;
      [apply Z.eqb_eq in E2; lia|].
    rewrite nonempty_true; [reflexivity|].
    apply join_nonempty, Hseg. inversion Hrest; assumption.
  - intros user Huser. unfold cleanProjectName.
    replace (startsWith (encode ["home"; user]) "-tmp") with false by reflexivity.
    rewrite parts_of_encode
      by (constructor; [exact Hhome|constructor; [exact Huser|constructor]]).
    reflexivity.
  - intros user r rest Huser Hrest Hr. unfold cleanProjectName.
    replace (startsWith (encode ("home" :: user :: r :: rest)) "-tmp")
      with false by reflexivity.
    rewrite parts_of_encode
      by (constructor; [exact Hhome|constructor; assumption]).
    cbn [hd_error String.eqb Ascii.eqb Bool.eqb andb length skipn].
    destruct (2 <=? Z.of_nat (S (S (S (length rest))))) eqn:E1;
      [|apply Z.leb_gt in E1; lia].
    destruct (Z.of_nat (S (length rest)) =? 0) eqn:E2;
      [apply Z.eqb_eq in E2; lia|].
    destruct (String.eqb_spec r "projects") as [Heq|_]; [contradiction|].
    rewrite nonempty_true; [reflexivity|].
    apply join_nonempty, Hseg. inversion Hrest; assumption.
  - intros dirName Htmp Hshape. unfold cleanProjectName. rewrite Htmp.
    destruct (filter nonempty (split dash dirName)) as [|p0 [|p1 rest]] eqn:Eparts;
      try reflexivity.
    + cbn [hd_error length]. rewrite andb_false_r. reflexivity.
    + cbn [hd_error]. destruct (String.eqb_spec p0 "home") as [->|Hne]; [|reflexivity].
      exfalso. apply (Hshape p1 rest). reflexivity.
Qed.

(** ** StatsAnalyzer *)

Lemma Qlt_bool_iff (x y : Q) : Qlt_bool x y = true <-> (x < y)%Q.
Proof.
  unfold Qlt_bool. rewrite negb_true_iff. split.
  - intros H. apply Qnot_le_lt. intros Hle. apply Qle_bool_iff in Hle. congruence.
  - intros H. destruct (Qle_bool y x) eqn:E; [|reflexivity].
    apply Qle_bool_iff in E. exfalso. exact (Qlt_not_le _ _ H E).
Qed.

Lemma Qlt_bool_false_iff (x y : Q) : Qlt_bool x y = false <-> (y <= x)%Q.
Proof.
  unfold Qlt_bool. rewrite negb_false_iff. apply Qle_bool_iff.
Qed.

Lemma longest_of_spec (base : list Session) (init : Session) :
  (longest_of base init = init \/ In (longest_of base init) base)
  /\ (durationHours init <= durationHours (longest_of base init))%Q
  /\ (forall s, In s base -> (durationHours s <= durationHours (longest_of base init))%Q).
Proof.
  unfold longest_of. revert init. induction base as [|x base IH]; intros init; simpl.
  - split; [left; reflexivity|]. split; [apply Qle_refl|]. intros s [].
  - destruct (Qlt_bool (durationHours init) (durationHours x)) eqn:E.
    + destruct (IH x) as [Hin [Hge Hall]]. apply Qlt_bool_iff in E.
      split; [destruct Hin as [->|Hin]; right; [left; reflexivity|right; exact Hin]|].
      split; [eapply Qle_trans; [apply Qlt_le_weak, E|exact Hge]|].
      intros s [<-|Hs]; [exact Hge|apply Hall, Hs].
    + destruct (IH init) as [Hin [Hge Hall]]. apply Qlt_bool_false_iff in E.
      split; [destruct Hin as [->|Hin]; [left; reflexivity|right; right; exact Hin]|].
      split; [exact Hge|].
      intros s [<-|Hs]; [eapply Qle_trans; [exact E|exact Hge]|apply Hall, Hs].
Qed.

Lemma longest_of_head (base : list Session) (d : Session) :
  base <> [] ->
  In (longest_of base (hd d base)) base
  /\ (forall s, In s base -> (durationHours s <= durationHours (longest_of base (hd d base)))%Q).
Proof.
  intros Hne. destruct base as [|x base]; [contradiction|]. cbn [hd].
  destruct (longest_of_spec (x :: base) x) as [[->|Hin] [_ Hall]].
  - split; [left; reflexivity|exact Hall].
  - split; [exact Hin|exact Hall].
Qed.

Section AnalyzerFacts.
Context {host : Host}.

Lemma analyze_some (sessions : list Session) (stats : AnalysisResult) :
  analyze sessions = Some stats ->
  exists s0 rest, sessions = s0 :: rest /\ stats = analyze_nonempty s0 sessions.
Proof.
  destruct sessions as [|s0 rest]; cbn [analyze]; intros H; [discriminate|].
  exists s0, rest. split; [reflexivity|]. injection H as H. symmetry. exact H.
Qed.

Lemma analyze_fields (sessions : list Session) (stats : AnalysisResult) :
  analyze sessions = Some stats ->
  sessions <> []
  /\ (forall d, maxSession stats
                = longest_of (maxSessionBase_of sessions)
                             (hd (hd d sessions) (maxSessionBase_of sessions)))
  /\ hasAutonomousSessions stats
     = existsb (fun s => Qlt_bool MAX_INTERACTIVE_SESSION_HOURS (durationHours s)) sessions
  /\ activeDays stats = sort (fun a b => a - b) (map fst (group_by_date sessions))
  /\ maxStreak stats = longest_streak (activeDays stats)
  /\ totalHours stats = sum_hours durationHours sessions
  /\ avgDuration stats = (totalHours stats / inject_Z (list_length sessions))%Q
  /\ avgDailyHours stats
     = (totalHours stats / inject_Z (list_length (activeDays stats)))%Q
  /\ warnings stats
     = health_warnings sessions (maxStreak stats) (avgDuration stats) (avgDailyHours stats).
Proof.
  intros H. destruct (analyze_some sessions stats H) as [s0 [rest [-> ->]]].
  split; [discriminate|]. repeat split.
Qed.

(** The rule of "Longest Session": the longest of the sessions of at most
    8 hours when there is one, else the longest of all; and the flag is set
    when some session lasts more than 8 hours. *)
Lemma maxSession_selection (sessions : list Session) (stats : AnalysisResult) :
  analyze sessions = Some stats ->
  let interactive (s : Session) := (durationHours s <= MAX_INTERACTIVE_SESSION_HOURS)%Q in
  In (maxSession stats) sessions
  /\ ((exists s, In s sessions /\ interactive s) ->
      interactive (maxSession stats)
      /\ forall s, In s sessions -> interactive s ->
                   (durationHours s <= durationHours (maxSession stats))%Q)
  /\ ((forall s, In s sessions -> ~ interactive s) ->
      forall s, In s sessions -> (durationHours s <= durationHours (maxSession stats))%Q)
  /\ (hasAutonomousSessions stats = true <->
      exists s, In s sessions /\ (MAX_INTERACTIVE_SESSION_HOURS < durationHours s)%Q).
Proof.
  intros Han interactive.
  destruct (analyze_fields sessions stats Han) as [Hne [Hmax [Hflag _]]].
  set (keep := fun s => Qle_bool (durationHours s) MAX_INTERACTIVE_SESSION_HOURS).
  assert (Hbase : maxSessionBase_of sessions
                  = if 0 <? list_length (filter keep sessions)
                    then filter keep sessions else sessions) by reflexivity.
  assert (Hkeep : forall s, keep s = true <-> interactive s)
    by (intros s; apply Qle_bool_iff).
  destruct (0 <? list_length (filter keep sessions)) eqn:Epos.
  - apply list_length_pos in Epos.
    destruct (longest_of_head (maxSessionBase_of sessions)
                              (hd (maxSession stats) sessions)) as [Hin Hall];
      [rewrite Hbase; exact Epos|].
    rewrite <- (Hmax (maxSession stats)) in Hin, Hall. rewrite Hbase in Hin, Hall.
    apply filter_In in Hin. destruct Hin as [Hin Hk].
    split; [exact Hin|]. split; [|split].
    + intros _. split; [apply Hkeep, Hk|].
      intros s Hs Hi. apply Hall, filter_In. split; [exact Hs|apply Hkeep, Hi].
    + intros Hnone. exfalso. apply (Hnone _ Hin), Hkeep, Hk.
    + rewrite Hflag, existsb_exists. split; intros [s [Hs Hlt]]; exists s;
        (split; [exact Hs|apply Qlt_bool_iff, Hlt]).
  - assert (Hnil : filter keep sessions = []).
    { destruct (filter keep sessions) eqn:Ef; [reflexivity|].
      exfalso. assert (Hp : (0 <? list_length (filter keep sessions)) = true)
        by (apply list_length_pos; rewrite Ef; discriminate).
      rewrite Ef in Hp. congruence. }
    destruct (longest_of_head (maxSessionBase_of sessions)
                              (hd (maxSession stats) sessions)) as [Hin Hall];
      [rewrite Hbase; exact Hne|].
    rewrite <- (Hmax (maxSession stats)) in Hin, Hall. rewrite Hbase in Hin, Hall.
    split; [exact Hin|]. split; [|split].
    + intros [s [Hs Hi]]. exfalso.
      assert (Hf : In s (filter keep sessions))
        by (apply filter_In; split; [exact Hs|apply Hkeep, Hi]).
      rewrite Hnil in Hf. exact Hf.
    + intros _. exact Hall.
    + rewrite Hflag, existsb_exists. split; intros [s [Hs Hlt]]; exists s;
        (split; [exact Hs|apply Qlt_bool_iff, Hlt]).
Qed.

End AnalyzerFacts.

(** *** Warnings *)

Lemma longSessions_some (sessions : list Session) :
  (0 <? list_length (longSessions_of sessions)) = true <->
  exists s, In s sessions /\ (HEALTH_WARN_SESSION_HOURS <= durationHours s)%Q.
Proof.
  rewrite list_length_pos. unfold longSessions_of. split.
  - intros Hne.
    destruct (filter (fun s => Qle_bool HEALTH_WARN_SESSION_HOURS (durationHours s)) sessions)
      as [|s l] eqn:E; [contradiction|].
    assert (Hin : In s (s :: l)) by (left; reflexivity).
    rewrite <- E in Hin. apply filter_In in Hin. destruct Hin as [Hin Hle].
    exists s. split; [exact Hin|apply Qle_bool_iff, Hle].
  - intros [s [Hin Hle]] Hnil.
    assert (Hf : In s (filter (fun s => Qle_bool HEALTH_WARN_SESSION_HOURS (durationHours s))
                               sessions))
      by (apply filter_In; split; [exact Hin|apply Qle_bool_iff, Hle]).
    rewrite Hnil in Hf. exact Hf.
Qed.

Lemma health_warnings_order (sessions : list Session) (maxStreak : Z)
      (avgDuration avgDailyHours : Q) :
  health_warnings sessions maxStreak avgDuration avgDailyHours
  = (entry_when (0 <? list_length (longSessions_of sessions))
                (long_session_warning (list_length (longSessions_of sessions)))
     ++ entry_when (HEALTH_WARN_CONSECUTIVE_DAYS <=? maxStreak) (streak_warning maxStreak)
     ++ entry_when (Qlt_bool 2 avgDuration) (average_warning avgDuration)
     ++ entry_when (Qlt_bool 6 avgDailyHours) (daily_warning avgDailyHours))%list.
Proof.
  unfold health_warnings, entry_when.
  destruct (0 <? list_length (longSessions_of sessions));
    destruct (HEALTH_WARN_CONSECUTIVE_DAYS <=? maxStreak);
    destruct (Qlt_bool 2 avgDuration); destruct (Qlt_bool 6 avgDailyHours);
    reflexivity.
Qed.

Section WarningFacts.
Context {host : Host}.

End WarningFacts.

(** *** Longest streak *)

Lemma consecutive_test (prev curr : Z) :
  Qeq_bool ((Date_of_key curr - Date_of_key prev) # Z.to_pos MS_PER_DAY) 1
  = (curr - prev =? 1).
Proof.
  destruct (curr - prev =? 1) eqn:E.
  - apply Qeq_bool_iff. apply Z.eqb_eq in E. unfold Qeq, Date_of_key. simpl.
    change (Z.pos (Z.to_pos MS_PER_DAY)) with 86400000. unfold MS_PER_DAY. lia.
  - apply Z.eqb_neq in E. destruct (Qeq_bool _ 1) eqn:Eq; [|reflexivity].
    apply Qeq_bool_iff in Eq. unfold Qeq, Date_of_key in Eq. simpl in Eq.
    change (Z.pos (Z.to_pos MS_PER_DAY)) with 86400000 in Eq. unfold MS_PER_DAY in Eq. lia.
Qed.

Lemma streak_invariant_step (P : Z -> Prop) (prev max cur curr : Z) :
  streak_invariant P prev max cur ->
  prev < curr ->
  let P' := fun x => P x \/ x = curr in
  if curr - prev =? 1
  then streak_invariant P' curr (Z.max max (cur + 1)) (cur + 1)
  else streak_invariant P' curr max 1.
Proof.
  intros [Hb Hc Hbef Hlast [d0 Hreach] Hlong] Hlt P'.
  assert (Hlast' : forall x, P' x -> x <= curr).
  { intros x [Hx| ->]; [apply Hlast in Hx|]; lia. }
  assert (Hend : forall d k, run P' d k -> 0 < k ->
                 (run P d k) \/ d + (k - 1) = curr).
  { intros d k Hrun Hk.
    destruct (Z.eq_dec (d + (k - 1)) curr) as [E|E]; [right; exact E|left].
    intros i Hi. destruct (Hrun i Hi) as [Hp|Heq]; [exact Hp|].
    exfalso. assert (Htop : P' (d + (k - 1))) by (apply Hrun; lia).
    apply Hlast' in Htop. lia. }
  destruct (curr - prev =? 1) eqn:E.
  - apply Z.eqb_eq in E. constructor.
    + lia.
    + intros i Hi. destruct (Z.eq_dec i 0) as [->|Hne].
      * right. lia.
      * left. replace (curr - i) with (prev - (i - 1)) by lia. apply Hc. lia.
    + intros [Hp|Heq]; [|lia].
      apply Hbef. replace (prev - cur) with (curr - (cur + 1)) by lia. exact Hp.
    + exact Hlast'.
    + destruct (Z.max_spec max (cur + 1)) as [[_ ->]|[_ ->]].
      * exists (prev - cur + 1). intros i Hi.
        destruct (Z.eq_dec i cur) as [->|Hne].
        -- right. lia.
        -- left. replace (prev - cur + 1 + i) with (prev - (cur - 1 - i)) by lia.
           apply Hc. lia.
      * exists d0. intros i Hi. left. apply Hreach, Hi.
    + intros d k Hrun. destruct (Z_lt_le_dec 0 k) as [Hk|Hk]; [|lia].
      destruct (Hend d k Hrun Hk) as [Hold|Htop].
      * apply Hlong in Hold. lia.
      * destruct (Z_lt_le_dec (cur + 1) k) as [Hbig|Hsmall]; [|lia].
        exfalso. assert (Hin : P' (d + (k - 1 - (cur + 1)))) by (apply Hrun; lia).
        destruct Hin as [Hp|Heq]; [|lia].
        apply Hbef. replace (prev - cur) with (d + (k - 1 - (cur + 1))) by lia. exact Hp.
  - apply Z.eqb_neq in E. constructor.
    + lia.
    + intros i Hi. right. lia.
    + intros [Hp|Heq]; [|lia]. apply Hlast in Hp. lia.
    + exact Hlast'.
    + exists d0. intros i Hi. left. apply Hreach, Hi.
    + intros d k Hrun. destruct (Z_lt_le_dec 0 k) as [Hk|Hk]; [|lia].
      destruct (Hend d k Hrun Hk) as [Hold|Htop].
      * exact (Hlong d k Hold).
      * destruct (Z_lt_le_dec 1 k) as [Hbig|Hsmall]; [|lia].
        exfalso. assert (Hin : P' (d + (k - 2))) by (apply Hrun; lia).
        destruct Hin as [Hp|Heq]; [|lia]. apply Hlast in Hp. lia.
Qed.

Lemma streak_loop_spec (days : list Z) :
  forall (P : Z -> Prop) (prev max cur : Z),
    StronglySorted Z.lt (prev :: days) ->
    streak_invariant P prev max cur ->
    let S := fun x => P x \/ In x days in
    let r := streak_loop prev days max cur in
    1 <= r /\ (exists d, run S d r) /\ (forall d k, run S d k -> k <= r).
Proof.
  induction days as [|curr days IH]; intros P prev max cur Hsorted Hinv S r.
  - subst r S. cbn [streak_loop]. destruct Hinv as [Hb _ _ _ [d0 Hreach] Hlong].
    split; [lia|]. split.
    + exists d0. intros i Hi. left. apply Hreach, Hi.
    + intros d k Hrun. apply (Hlong d k). intros i Hi.
      destruct (Hrun i Hi) as [Hp|[]]. exact Hp.
  - assert (Hlt : prev < curr).
    { inversion Hsorted as [|? ? _ Hall]; subst. inversion Hall; assumption. }
    assert (Hsorted' : StronglySorted Z.lt (curr :: days))
      by (inversion Hsorted; assumption).
    pose proof (streak_invariant_step P prev max cur curr Hinv Hlt) as Hstep.
    cbn zeta in Hstep. subst r. cbn [streak_loop]. rewrite consecutive_test.
    set (P' := fun x => P x \/ x = curr) in *.
    assert (Hsame : forall x, S x <-> (P' x \/ In x days)).
    { intros x. subst S P'. cbn [In]. intuition auto. }
    assert (Hrun : forall d k, run S d k <-> run (fun x => P' x \/ In x days) d k).
    { intros d k. split; intros H i Hi; apply Hsame, H, Hi. }
    destruct (curr - prev =? 1).
    + destruct (IH P' curr (Z.max max (cur + 1)) (cur + 1) Hsorted' Hstep)
        as [H1 [[d Hd] Hall]].
      split; [exact H1|]. split.
      * exists d. apply Hrun, Hd.
      * intros d' k Hk. apply (Hall d' k), Hrun, Hk.
    + destruct (IH P' curr max 1 Hsorted' Hstep) as [H1 [[d Hd] Hall]].
      split; [exact H1|]. split.
      * exists d. apply Hrun, Hd.
      * intros d' k Hk. apply (Hall d' k), Hrun, Hk.
Qed.

Lemma longest_streak_spec (activeDays : list Z) :
  activeDays <> [] ->
  StronglySorted Z.lt activeDays ->
  let S := fun x => In x activeDays in
  1 <= longest_streak activeDays
  /\ (exists d, run S d (longest_streak activeDays))
  /\ (forall d k, run S d k -> k <= longest_streak activeDays).
Proof.
  intros Hne Hsorted S. destruct activeDays as [|first days]; [contradiction|].
  cbn [longest_streak].
  assert (Hinv : streak_invariant (fun x => x = first) first 1 1).
  { constructor.
    - lia.
    - intros i Hi. lia.
    - lia.
    - intros x ->. lia.
    - exists first. intros i Hi. lia.
    - intros d k Hrun. destruct (Z_lt_le_dec 1 k) as [Hbig|Hsmall]; [|lia].
      assert (H0 : d + 0 = first) by (apply Hrun; lia).
      assert (H1 : d + 1 = first) by (apply Hrun; lia). lia. }
  destruct (streak_loop_spec days (fun x => x = first) first 1 1 Hsorted Hinv)
    as [H1 [[d Hd] Hall]].
  assert (Hsame : forall x, S x <-> (x = first \/ In x days)).
  { intros x. subst S. cbn [In]. intuition auto. }
  split; [exact H1|]. split.
  - exists d. intros i Hi. apply Hsame, Hd, Hi.
  - intros d' k Hk. apply (Hall d' k). intros i Hi. apply Hsame, Hk, Hi.
Qed.

Section ObjFacts.
Context {K V : Type} (eqb : K -> K -> bool).
Hypothesis eqb_eq : forall a b, eqb a b = true <-> a = b.

Lemma obj_set_keys_In (o : list (K * V)) (k : K) (v : V) (x : K) :
  In x (map fst (obj_set eqb o k v)) <-> x = k \/ In x (map fst o).
Proof.
  induction o as [|[k' v'] o IH]; cbn [obj_set map fst In].
  - intuition auto.
  - destruct (eqb k' k) eqn:E; cbn [map fst In].
    + apply eqb_eq in E. subst k'. intuition auto.
    + rewrite IH. intuition auto.
Qed.

Lemma obj_set_keys_NoDup (o : list (K * V)) (k : K) (v : V) :
  NoDup (map fst o) -> NoDup (map fst (obj_set eqb o k v)).
Proof.
  induction o as [|[k' v'] o IH]; cbn [obj_set map fst]; intros Hnd.
  - constructor; [intros []|constructor].
  - inversion Hnd as [|? ? Hnotin Hnd']; subst.
    destruct (eqb k' k) eqn:E; cbn [map fst].
    + constructor; assumption.
    + constructor; [|apply IH, Hnd'].
      intros Hin. apply obj_set_keys_In in Hin. destruct Hin as [->|Hin].
      * assert (Ht : eqb k k = true) by (apply eqb_eq; reflexivity). congruence.
      * contradiction.
Qed.
End ObjFacts.

Lemma sorted_nodup_strict (l : list Z) :
  StronglySorted Z.le l -> NoDup l -> StronglySorted Z.lt l.
Proof.
  induction 1 as [|x l Hs IH Hall]; intros Hnd; [constructor|].
  inversion Hnd as [|? ? Hnotin Hnd']; subst.
  constructor; [apply IH, Hnd'|].
  rewrite Forall_forall in *. intros y Hy. specialize (Hall y Hy).
  destruct (Z.eq_dec x y) as [->|Hne]; [contradiction|lia].
Qed.

Section StreakFacts.
Context {host : Host}.

Lemma group_by_date_keys (sessions : list Session) :
  NoDup (map fst (group_by_date sessions))
  /\ forall day, In day (map fst (group_by_date sessions)) <-> active sessions day.
Proof.
  unfold group_by_date, active.
  set (step := fun (byDate : list (Z * DateEntry.t)) (s : Session) => _).
  assert (Hgen : forall l o,
             NoDup (map fst o) ->
             NoDup (map fst (fold_left step l o))
             /\ forall day, In day (map fst (fold_left step l o)) <->
                            In day (map fst o)
                            \/ exists s, In s l /\ toLocaleDateString (start s) = day).
  { induction l as [|s l IH]; intros o Hnd; cbn [fold_left].
    - split; [exact Hnd|]. intros day. split; [auto|].
      intros [H|[s [[] _]]]. exact H.
    - destruct (IH (step o s)) as [Hnd' Hin].
      + subst step. cbn beta. apply obj_set_keys_NoDup; [apply Z.eqb_eq|exact Hnd].
      + split; [exact Hnd'|]. intros day. rewrite Hin.
        subst step. cbn beta. rewrite (obj_set_keys_In Z.eqb Z.eqb_eq).
        split.
        * intros [[->|Ho]|[s' [Hs' Hd]]].
          -- right. exists s. split; [left; reflexivity|reflexivity].
          -- left. exact Ho.
          -- right. exists s'. split; [right; exact Hs'|exact Hd].
        * intros [Ho|[s' [[<-|Hs'] Hd]]].
          -- left. right. exact Ho.
          -- left. left. symmetry. exact Hd.
          -- right. exists s'. split; [exact Hs'|exact Hd]. }
  destruct (Hgen sessions [] (NoDup_nil _)) as [Hnd Hin].
  split; [exact Hnd|]. intros day. rewrite Hin. cbn [map In]. intuition auto.
Qed.

Lemma activeDays_spec (sessions : list Session) (stats : AnalysisResult) :
  analyze sessions = Some stats ->
  activeDays stats <> []
  /\ StronglySorted Z.lt (activeDays stats)
  /\ forall day, In day (activeDays stats) <-> active sessions day.
Proof.
  intros Han. destruct (analyze_fields sessions stats Han) as [Hne [_ [_ [Hdays _]]]].
  destruct (group_by_date_keys sessions) as [Hnd Hkeys].
  assert (Hin : forall day, In day (activeDays stats) <-> active sessions day).
  { intros day. rewrite Hdays, sort_In. apply Hkeys. }
  split; [|split; [|exact Hin]].
  - destruct sessions as [|s0 rest]; [contradiction|].
    assert (Hact : In (toLocaleDateString (start s0)) (activeDays stats)).
    { apply Hin. exists s0. split; [left; reflexivity|reflexivity]. }
    intros Hnil. rewrite Hnil in Hact. exact Hact.
  - rewrite Hdays. apply sorted_nodup_strict.
    + apply sort_sorted; intros; lia.
    + eapply Permutation_NoDup; [apply sort_perm|exact Hnd].
Qed.

End StreakFacts.

(** ** JSON output *)

Lemma round2_two_decimals (x : Q) : two_decimals x (round2 x).
Proof.
  exists (Math_round (x * 100)). split; [reflexivity|]. unfold Math_round.
  pose proof (Qfloor_le (x * 100 + (1 # 2))) as Hle.
  pose proof (Qlt_floor (x * 100 + (1 # 2))) as Hlt.
  rewrite inject_Z_plus in Hlt. change (inject_Z 1) with 1%Q in Hlt.
  set (k := inject_Z (Qfloor (x * 100 + (1 # 2)))) in *. split; [lra|exact Hle].
Qed.

Lemma round2_monotone (x y : Q) : (x <= y)%Q -> (round2 x <= round2 y)%Q.
Proof.
  intros Hxy. unfold round2, Math_round.
  assert (Hfloor : Qfloor (x * 100 + (1 # 2)) <= Qfloor (y * 100 + (1 # 2)))
    by (apply Qfloor_resp_le; lra).
  rewrite Zle_Qle in Hfloor.
  unfold Qdiv. apply Qmult_le_compat_r; [exact Hfloor|]. discriminate.
Qed.

Lemma Qcompare_sign_le (x y : Q) : Qcompare_sign (y - x) <= 0 -> (y <= x)%Q.
Proof.
  unfold Qcompare_sign, Qle. destruct x as [a b], y as [c d]. simpl.
  intros H. assert (Hn : c * Z.pos b + - a * Z.pos d <= 0).
  { destruct (Z_lt_le_dec 0 (c * Z.pos b + - a * Z.pos d)) as [Hpos|Hle]; [|exact Hle].
    apply Z.sgn_pos in Hpos. lia. }
  lia.
Qed.

Lemma Qcompare_sign_gt (x y : Q) : 0 < Qcompare_sign (y - x) -> (x <= y)%Q.
Proof.
  unfold Qcompare_sign, Qle. destruct x as [a b], y as [c d]. simpl.
  intros H. apply Z.sgn_pos_iff in H. lia.
Qed.

Lemma StronglySorted_map {A B : Type} (R : A -> A -> Prop) (R' : B -> B -> Prop)
      (f : A -> B) (l : list A) :
  (forall a b, R a b -> R' (f a) (f b)) ->
  StronglySorted R l -> StronglySorted R' (map f l).
Proof.
  intros Hf. induction 1 as [|x l Hs IH Hall]; cbn [map]; constructor.
  - exact IH.
  - rewrite Forall_forall in *. intros y Hy. apply in_map_iff in Hy.
    destruct Hy as [a [<- Ha]]. apply Hf, Hall, Ha.
Qed.

Lemma Object_entries_In {V : Type} (o : list (string * V)) (kv : string * V) :
  In kv (Object_entries o) <-> In kv o.
Proof.
  unfold Object_entries. rewrite in_app_iff, sort_In, !filter_In.
  destruct (array_index (fst kv)); cbn [negb]; intuition discriminate.
Qed.

Section JsonFacts.
Context {host : Host}.

Lemma topProjects_spec (stats : AnalysisResult) :
  StronglySorted (fun a b => (ProjectEntry.hours b <= ProjectEntry.hours a)%Q)
                 (Json.topProjects (buildJsonOutput stats))
  /\ Forall (fun e => exists raw, In (ProjectEntry.name e, raw) (projectHours stats)
                                  /\ two_decimals raw (ProjectEntry.hours e))
            (Json.topProjects (buildJsonOutput stats)).
Proof.
  cbn [buildJsonOutput Json.topProjects]. split.
  - apply StronglySorted_map with (R := fun a b => (snd b <= snd a)%Q).
    + intros a b Hab. cbn [ProjectEntry.hours]. apply round2_monotone, Hab.
    + apply sort_sorted.
      * intros x y z Hxy Hyz. eapply Qle_trans; eassumption.
      * intros x y. apply Qcompare_sign_le.
      * intros x y. apply Qcompare_sign_gt.
  - rewrite Forall_forall. intros e He. apply in_map_iff in He.
    destruct He as [[name raw] [<- Hin]].
    apply (proj1 (sort_In _ _ _)) in Hin.
    apply (proj1 (Object_entries_In _ _)) in Hin.
    exists raw. split; [exact Hin|apply round2_two_decimals].
Qed.

End JsonFacts.

(** ** The properties on the example store *)

Lemma scanned_sessions_within_bounds_example :
  let s := Example.session "foo" 1704099600000 1704105000000 165 in
  In s (scanSessions (host := Example.host) Example.claudeDir)
  /\ ((0 <= durationHours s)%Q /\ (durationHours s < 168)%Q /\ 50 <= sizeBytes s)
  /\ addSession (host := Example.host) Example.reversed "foo" [] = []
  /\ addSession (host := Example.host) Example.week_long "foo" [] = []
  /\ addSession (host := Example.host) Example.tiny "foo" [] = [].
Proof.
  intros s.
  pose proof (scanned_sessions_within_bounds (host := Example.host) Example.claudeDir)
    as [Hbounds Hskip].
  assert (Hin : In s (scanSessions (host := Example.host) Example.claudeDir))
    by (vm_compute; left; reflexivity).
  split; [exact Hin|]. split; [exact (Hbounds s Hin)|]. split; [|split].
  - apply Hskip. right. exists 1704105000000, 1704099600000. split.
    + eexists. split; [reflexivity|]. split; vm_compute; reflexivity.
    + left. reflexivity.
  - apply Hskip. right. exists 1704099600000, 1704704400000. split.
    + eexists. split; [reflexivity|]. split; vm_compute; reflexivity.
    + right. vm_compute. discriminate.
  - apply Hskip. left. eexists. split; [reflexivity|]. vm_compute. reflexivity.
Defined.




(** A session of exactly 3 hours raises the long-session warning, one of
    2.999 hours does not. *)
Example long_session_threshold :
  health_warnings [Example.three_hours] 1 3 3
  = [long_session_warning 1; average_warning 3]
  /\ health_warnings [Example.just_under_three] 1 (2999 # 1000) (2999 # 1000)
     = [average_warning (2999 # 1000)].
Proof. split; reflexivity. Qed.


(** The streak of the days D, D+1, D+2, D+10, of one day, and of a week. *)
Example longest_streak_values :
  longest_streak [100; 101; 102; 110] = 3
  /\ longest_streak [100] = 1
  /\ longest_streak [1; 3; 4; 5; 6; 7; 8; 9; 20; 21] = 7.
Proof. repeat split; reflexivity. Qed.

(** C6 fails as stated: a directory under the home of a user, outside
    projects, is not returned unchanged; and the home of a user whose name
    holds the delimiter does not give the home label. *)
Lemma cleanProjectName_outside_listed_shapes :
  cleanProjectName (encode ["home"; "alice"; "work"]) = "work"
  /\ cleanProjectName (encode ["home"; "alice"; "work"])
     <> encode ["home"; "alice"; "work"]
  /\ cleanProjectName (encode ["home"; "al-ice"]) = "ice"
  /\ cleanProjectName (encode ["home"; "al-ice"]) <> "~".
Proof.
  vm_compute. repeat split; discriminate.
Qed.

Lemma cleanProjectName_cases_example :
  cleanProjectName "-home-alice-projects-foo" = "foo"
  /\ cleanProjectName "-home-alice" = "~"
  /\ cleanProjectName "-tmp-build-123" = "/tmp"
  /\ cleanProjectName "-var-lib-data" = "-var-lib-data".
Proof.
  destruct cleanProjectName_cases as [_ [Htmp [Hprojects [Hhome [_ Hother]]]]].
  assert (Halice : segment "alice") by (split; [discriminate|reflexivity]).
  assert (Hfoo : segment "foo") by (split; [discriminate|reflexivity]).
  split; [|split; [|split]].
  - apply (Hprojects "alice" ["foo"] Halice).
    + constructor; [exact Hfoo|constructor].
    + discriminate.
  - apply (Hhome "alice" Halice).
  - apply Htmp. reflexivity.
  - apply Hother; [reflexivity|]. intros user rest. vm_compute. discriminate.
Defined.

(** C3, on the store whose only session lasts 10 hours: the session is
    the one selected as the longest, no session is left out of the
    selection, and [hasAutonomousSessions] is set all the same. *)
Theorem autonomous_flag_without_exclusion :
  let sessions := scanSessions (host := Example.host)
                               (child Example.overnight_homedir ".claude") in
  exists stats,
    sessions = [Example.ten_hours]
    /\ (durationHours Example.ten_hours == 10)%Q
    /\ analyze (host := Example.host) sessions = Some stats
    /\ maxSession stats = Example.ten_hours
    /\ (forall s, In s sessions -> In s (maxSessionBase_of sessions))
    /\ hasAutonomousSessions stats = true.
Proof.
  intros sessions.
  assert (Hscan : sessions = [Example.ten_hours]) by (vm_compute; reflexivity).
  exists (analyze_nonempty (host := Example.host) Example.ten_hours [Example.ten_hours]).
  rewrite Hscan. split; [reflexivity|]. split; [reflexivity|].
  split; [reflexivity|]. split; [reflexivity|]. split; [|reflexivity].
  intros s Hs. exact Hs.
Qed.




(** The run of the program on the example store. *)
Example end_to_end :
  exists report,
    main (host := Example.host) true Example.homedir = ([JsonReport report], 0)
    /\ Json.totalSessions report = 3
    /\ (Json.totalHours report == 158 # 100)%Q
    /\ map ProjectEntry.name (Json.topProjects report) = ["foo"]
    /\ Json.streak report = 1.
Proof.
  eexists. split; [vm_compute; reflexivity|]. repeat split.
Qed.
